(** * dokuwiki2wikijs: the line-rewriting passes of [dokuwiki2wikijs.py]

    A shallow embedding of the text transformation pipeline: the link
    rewriter ([find_next_link_start], [convert_links]), the admonition block
    rewriter ([wrap_kind], [convert_wrap]), the stale-tag stripper
    ([remove_useless_tags]), the front-matter synthesizer
    ([first_heading_or_filename], [get_metadata], [add_metadata]) and the
    driver [convert_file] that composes them, given the text of the file
    and the output of the external converter.

    Python strings are modelled as [string]; a character is a code point in
    the range 0..255.  Python exceptions are modelled by the [Raise] case of
    [result]; the unbounded [while] loop of [convert_links] takes a fuel
    argument and answers [OutOfFuel] when the fuel is used up. *)

From Stdlib Require Import String Ascii List ZArith Lia Bool Arith DecimalString.
Import ListNotations.
Local Open Scope list_scope.
Local Open Scope string_scope.

Set Implicit Arguments.

(** ** Results of fallible code *)

(** The exceptions the modelled code raises.  [TemplateError] stands for the
    two exceptions [re.sub] raises when it rejects its replacement template:
    [re.error], and [IndexError] for an unknown group name. *)
Inductive exn : Type :=
| IndexError
| ValueError
| TemplateError.

Inductive result (A : Type) : Type :=
| Ok (a : A)
| Raise (e : exn)
| OutOfFuel.

Arguments Ok {A} a.
Arguments Raise {A} e.
Arguments OutOfFuel {A}.

Definition bind {A B : Type} (r : result A) (k : A -> result B) : result B :=
  match r with
  | Ok a => k a
  | Raise e => Raise e
  | OutOfFuel => OutOfFuel
  end.

Notation "x <- c ;; k" := (bind c (fun x => k))
  (at level 61, c at next level, right associativity).
Notation "' p <- c ;; k" := (bind c (fun p => k))
  (at level 61, p pattern, c at next level, right associativity).

(** ** Python string operations *)

Module PyStr.

Definition newline : ascii := "010"%char.
Definition dquote : ascii := "034"%char.

(** [s.startswith(p)] *)
Fixpoint startswith (s p : string) {struct p} : bool :=
  match p with
  | EmptyString => true
  | String a p' =>
      match s with
      | EmptyString => false
      | String b s' => Ascii.eqb a b && startswith s' p'
      end
  end.

(** [p in s] for strings *)
Fixpoint contains (s p : string) : bool :=
  startswith s p ||
  match s with
  | EmptyString => false
  | String _ s' => contains s' p
  end.

(** [s[n:]] and [s[:n]] for [n >= 0] *)
Fixpoint skip (n : nat) (s : string) : string :=
  match n with
  | O => s
  | S k => match s with
           | EmptyString => EmptyString
           | String _ s' => skip k s'
           end
  end.

Fixpoint take (n : nat) (s : string) : string :=
  match n with
  | O => EmptyString
  | S k => match s with
           | EmptyString => EmptyString
           | String c s' => String c (take k s')
           end
  end.

(** [s[pos:]] for any integer [pos]: a negative index counts from the end. *)
Definition slice_from (s : string) (pos : Z) : string :=
  if (pos <? 0)%Z
  then skip (Z.to_nat (Z.of_nat (String.length s) + pos)) s
  else skip (Z.to_nat pos) s.

(** [s.replace(old, new)]: every occurrence, leftmost first, not
    overlapping.  [replace_go] walks the string once; [inside] counts the
    characters of the occurrence just replaced that are still to be passed. *)
Fixpoint replace_go (old new : string) (inside : nat) (s : string) : string :=
  match s with
  | EmptyString => EmptyString
  | String c s' =>
      match inside with
      | S k => replace_go old new k s'
      | O =>
          if startswith s old
          then new ++ replace_go old new (String.length old - 1) s'
          else String c (replace_go old new 0 s')
      end
  end.

Fixpoint intersperse (new s : string) : string :=
  match s with
  | EmptyString => EmptyString
  | String c s' => String c (new ++ intersperse new s')
  end.

Definition replace (s old new : string) : string :=
  match old with
  | EmptyString => new ++ intersperse new s
  | String _ _ => replace_go old new 0 s
  end.

(** [s.split(sep)] for a one-character separator: empty pieces are kept. *)
Fixpoint split (s : string) (sep : ascii) : list string :=
  match s with
  | EmptyString => [EmptyString]
  | String c s' =>
      if Ascii.eqb c sep then EmptyString :: split s' sep
      else match split s' sep with
           | w :: ws => String c w :: ws
           | [] => [String c EmptyString]
           end
  end.

(** The cut of [s] at the first [sep]: what [s.split(sep, 1)] and
    [s.partition(sep)] are built from.  [None] when [sep] does not occur. *)
Fixpoint cut (s : string) (sep : ascii) : option (string * string) :=
  match s with
  | EmptyString => None
  | String c s' =>
      if Ascii.eqb c sep then Some (EmptyString, s')
      else match cut s' sep with
           | Some (a, b) => Some (String c a, b)
           | None => None
           end
  end.

(** [s.split(sep, 1)] *)
Definition split1 (s : string) (sep : ascii) : list string :=
  match cut s sep with
  | Some (a, b) => [a; b]
  | None => [s]
  end.

(** [s.partition(sep)[2]] *)
Definition partition_after (s : string) (sep : ascii) : string :=
  match cut s sep with
  | Some (_, b) => b
  | None => EmptyString
  end.

(** [c.isspace()] on the code points 0..255 *)
Definition isspace (c : ascii) : bool :=
  let n := nat_of_ascii c in
  ((9 <=? n)%nat && (n <=? 13)%nat) || ((28 <=? n)%nat && (n <=? 32)%nat)
  || (n =? 133)%nat || (n =? 160)%nat.

Fixpoint lstrip (s : string) : string :=
  match s with
  | EmptyString => EmptyString
  | String c s' => if isspace c then lstrip s' else s
  end.

Fixpoint rstrip (s : string) : string :=
  match s with
  | EmptyString => EmptyString
  | String c s' =>
      match rstrip s' with
      | EmptyString => if isspace c then EmptyString else String c EmptyString
      | r => String c r
      end
  end.

(** [s.strip()] *)
Definition strip (s : string) : string := rstrip (lstrip s).

(** [s.rstrip(chars)] for a one-character set *)
Fixpoint rstrip_char (s : string) (ch : ascii) : string :=
  match s with
  | EmptyString => EmptyString
  | String c s' =>
      match rstrip_char s' ch with
      | EmptyString => if Ascii.eqb c ch then EmptyString else String c EmptyString
      | r => String c r
      end
  end.

(** [w in words] for a list of strings *)
Definition mem (w : string) (words : list string) : bool :=
  existsb (String.eqb w) words.

(** [str(n)] for a natural number *)
Definition of_nat (n : nat) : string := NilEmpty.string_of_uint (Nat.to_uint n).

End PyStr.

Import PyStr.

(** [l.insert(i, x)] for [i >= 0]: an index past the end appends. *)
Definition list_insert {A : Type} (i : nat) (x : A) (l : list A) : list A :=
  (firstn i l ++ x :: skipn i l)%list.

(** ** The admonition block rewriter *)

Definition wrap_kind (tag : string) : string :=
  let words := split tag " " in
  if mem "info" words || mem "notice" words then "{.is-info}"
  else if mem "important" words || mem "warning" words || mem "caution" words
  then "{.is-warning}"
  else if mem "alert" words || mem "danger" words then "{.is-danger}"
  else if mem "tip" words || mem "help" words || mem "todo" words
  then "{.is-danger}"
  else if mem "safety" words || mem "danger" words then "{.is-danger}"
  else EmptyString.

(** The loop state of [convert_wrap]: the local variables [kind] and
    [wrapping]. *)
Record wrap_state : Type := WrapState { kind : string; wrapping : bool }.

Definition wrap_init : wrap_state := WrapState "{.is-info}" false.

Definition is_open_line (line : string) : bool :=
  startswith line "<WRAP" || startswith line "\<WRAP".

(** One iteration of the loop body on [line]: the new state and the new
    value of [lines[i]].  The local [line] is rebound by the opening branch;
    [out] is [lines[i]]. *)
Definition wrap_step (st : wrap_state) (line : string)
  : result (wrap_state * string) :=
  '(st1, line1, out1) <-
     (if is_open_line line
      then match split1 line ">" with
           | [tag; rest] =>
               Ok (WrapState (wrap_kind tag) true, rest, "> " ++ rest)
           | _ => Raise ValueError
           end
      else Ok (st, line, line)) ;;
  let '(st2, out2) :=
    if contains line1 "</WRAP>"
    then (WrapState (kind st1) false, replace out1 "</WRAP>" (kind st1))
    else (st1, out1) in
  let '(st3, out3) :=
    if contains line1 "\</WRAP\>"
    then (WrapState (kind st2) false, replace out2 "\</WRAP\>" (kind st2))
    else (st2, out2) in
  if wrapping st3 then Ok (st3, "> " ++ line1) else Ok (st3, out3).

(** The loop of [convert_wrap] from a given state: the final state and the
    rewritten lines. *)
Fixpoint wrap_loop (st : wrap_state) (lines : list string)
  : result (wrap_state * list string) :=
  match lines with
  | [] => Ok (st, [])
  | line :: rest =>
      '(st1, out) <- wrap_step st line ;;
      '(st2, outs) <- wrap_loop st1 rest ;;
      Ok (st2, out :: outs)
  end.

Definition convert_wrap (lines : list string) : result (list string) :=
  '(_, outs) <- wrap_loop wrap_init lines ;;
  Ok outs.

(** ** The stale-tag stripper *)

Definition remove_useless_tags (lines : list string) : list string :=
  map (fun line => replace (replace line "\<sortable\>" EmptyString)
                           "\</sortable\>" EmptyString) lines.

(** ** The front-matter synthesizer *)

Definition first_heading_or_filename (lines : list string) (pagename : string)
  : result string :=
  match lines with
  | [] => Raise IndexError
  | line0 :: _ =>
      match line0 with
      | EmptyString => Raise IndexError
      | String c _ =>
          if Ascii.eqb c "#" then Ok (strip (partition_after line0 " "))
          else Ok pagename
      end
  end.

(** The metadata dictionary, in insertion order. *)
Definition get_metadata (lines : list string) (pagename : string)
  : result (list (string * string)) :=
  title <- first_heading_or_filename lines pagename ;;
  Ok [("title", String dquote title ++ String dquote EmptyString)].

Definition add_metadata (lines : list string) (metadata : list (string * string))
  : list string :=
  let lines1 := list_insert 0 "---" lines in
  let lines2 :=
    fold_left (fun acc kv => list_insert 1 (fst kv ++ ": " ++ snd kv) acc)
              metadata lines1 in
  list_insert (List.length metadata + 1) "---" lines2.

(** ** The regular expressions of the link rewriter

    Each of the three patterns is written out as the backtracking matcher
    Python's [re] runs for it: alternatives in the order of the pattern, a
    lazy repetition tried with the fewest characters first, a greedy optional
    group tried as present first. *)

Module Re.

(** *** [\$\$.*?\$\$] *)

(** After the opening [$$]: the number of characters [.*?] takes before the
    closing [$$]; [.] does not match a newline. *)
Fixpoint math_body (s : string) : option nat :=
  match s with
  | EmptyString => None
  | String c r =>
      if Ascii.eqb c "$" && startswith r "$" then Some 0
      else if Ascii.eqb c newline then None
      else option_map S (math_body r)
  end.

(** The length of the match that starts at the head of [s]. *)
Definition math_at (s : string) : option nat :=
  match s with
  | String a (String b r) =>
      if Ascii.eqb a "$" && Ascii.eqb b "$"
      then option_map (fun n => n + 4) (math_body r)
      else None
  | _ => None
  end.

(** [[m.span() for m in re.finditer(..., line)]]: [i] is the index of the
    head of [s] in the line, [inside] the number of characters of the last
    match still to be passed (matches do not overlap). *)
Fixpoint math_spans_go (i inside : nat) (s : string) : list (nat * nat) :=
  match s with
  | EmptyString => []
  | String _ r =>
      match inside with
      | S k => math_spans_go (S i) k r
      | O =>
          match math_at s with
          | Some len => (i, i + len) :: math_spans_go (S i) (len - 1) r
          | None => math_spans_go (S i) 0 r
          end
      end
  end.

Definition math_spans (line : string) : list (nat * nat) :=
  math_spans_go 0 0 line.

(** *** [(\[\[|\{\{)] *)

Definition is_opener (a b : ascii) : bool :=
  (Ascii.eqb a "[" && Ascii.eqb b "[") || (Ascii.eqb a "{" && Ascii.eqb b "{").

(** [[m.start() for m in re.finditer(..., s)]], counted from [i]. *)
Fixpoint opener_starts_go (i : nat) (s : string) : list nat :=
  match s with
  | String a (String b r as s') =>
      if is_opener a b then i :: opener_starts_go (i + 2) r
      else opener_starts_go (i + 1) s'
  | _ => []
  end.

Definition opener_starts (s : string) : list nat := opener_starts_go 0 s.

(** *** [(\[\[|\{\{)(?P<uri>[^\|]+?)(\|(?P<text>.+?)?)?(\]\]|\}\})] *)

(** The groups of a match: group 1 is [m_open], group 2 ([uri]) is [m_uri],
    group 3 took part when [m_bar] is [Some _] and then holds the bar and
    the text, group 4 ([text]) is the inner option, group 5 is [m_close]. *)
Record link_match : Type := LinkMatch {
  m_open : string;
  m_uri : string;
  m_bar : option (option string);
  m_close : string
}.

Definition open_at (s : string) : option (string * string) :=
  match s with
  | String a (String b r) =>
      if Ascii.eqb a "[" && Ascii.eqb b "[" then Some ("[[", r)
      else if Ascii.eqb a "{" && Ascii.eqb b "{" then Some ("{{", r)
      else None
  | _ => None
  end.

Definition close_at (s : string) : option string :=
  if startswith s "]]" then Some "]]"
  else if startswith s "}}" then Some "}}"
  else None.

(** [.+?] followed by the closing marker: the shortest text first. *)
Fixpoint text_then_close (s : string) : option (string * string) :=
  match s with
  | EmptyString => None
  | String c r =>
      if Ascii.eqb c newline then None
      else match close_at r with
           | Some cl => Some (String c EmptyString, cl)
           | None =>
               match text_then_close r with
               | Some (t, cl) => Some (String c t, cl)
               | None => None
               end
           end
  end.

(** After the bar: the text group present first, then absent. *)
Definition bar_tail (s : string) : option (option string * string) :=
  match text_then_close s with
  | Some (t, cl) => Some (Some t, cl)
  | None =>
      match close_at s with
      | Some cl => Some (None, cl)
      | None => None
      end
  end.

(** Group 3 and the closing marker, at the end of a candidate uri: the
    optional group present first, then skipped. *)
Definition after_uri (s : string) : option (option (option string) * string) :=
  match (match s with
         | String c r => if Ascii.eqb c "|" then bar_tail r else None
         | EmptyString => None
         end) with
  | Some (t, cl) => Some (Some t, cl)
  | None =>
      match close_at s with
      | Some cl => Some (None, cl)
      | None => None
      end
  end.

(** [[^\|]+?] followed by the rest of the pattern: the shortest uri first. *)
Fixpoint uri_then_rest (s : string)
  : option (string * option (option string) * string) :=
  match s with
  | EmptyString => None
  | String c r =>
      if Ascii.eqb c "|" then None
      else match after_uri r with
           | Some (b, cl) => Some (String c EmptyString, b, cl)
           | None =>
               match uri_then_rest r with
               | Some (u, b, cl) => Some (String c u, b, cl)
               | None => None
               end
           end
  end.

(** The match that starts at the head of [s]. *)
Definition match_at (s : string) : option link_match :=
  match open_at s with
  | Some (op, r) =>
      match uri_then_rest r with
      | Some (u, b, cl) => Some (LinkMatch op u b cl)
      | None => None
      end
  | None => None
  end.

(** [re.search(pattern, s)]: the leftmost match and where it starts. *)
Fixpoint search_go (i : nat) (s : string) : option (nat * link_match) :=
  match match_at s with
  | Some m => Some (i, m)
  | None =>
      match s with
      | EmptyString => None
      | String _ s' => search_go (S i) s'
      end
  end.

Definition search (s : string) : option (nat * link_match) := search_go 0 s.

Definition group3 (m : link_match) : option string :=
  match m_bar m with
  | None => None
  | Some None => Some "|"
  | Some (Some t) => Some ("|" ++ t)
  end.

Definition group4 (m : link_match) : option string :=
  match m_bar m with
  | Some (Some t) => Some t
  | _ => None
  end.

Definition or_empty (o : option string) : string :=
  match o with
  | Some s => s
  | None => EmptyString
  end.

(** [m.group(0)] *)
Definition whole (m : link_match) : string :=
  m_open m ++ m_uri m ++ or_empty (group3 m) ++ m_close m.

(** [m.group(n)] for [n <= 5] *)
Definition group (m : link_match) (n : nat) : option string :=
  match n with
  | 0 => Some (whole m)
  | 1 => Some (m_open m)
  | 2 => Some (m_uri m)
  | 3 => group3 m
  | 4 => group4 m
  | _ => Some (m_close m)
  end.

End Re.

(** *** The replacement template of [re.sub]

    [re.sub] reads its replacement string as a template (CPython 3.12,
    [re._parser.parse_template]): a backslash starts a group reference, an
    octal or character escape; every other character stands for itself. *)

Module Template.

Inductive piece : Type :=
| Lit (c : ascii)
| Group (n : nat).

Definition is_digit (c : ascii) : bool :=
  let n := nat_of_ascii c in (48 <=? n)%nat && (n <=? 57)%nat.

Definition is_octdigit (c : ascii) : bool :=
  let n := nat_of_ascii c in (48 <=? n)%nat && (n <=? 55)%nat.

Definition is_asciiletter (c : ascii) : bool :=
  let n := nat_of_ascii c in
  ((65 <=? n)%nat && (n <=? 90)%nat) || ((97 <=? n)%nat && (n <=? 122)%nat).

Definition digit_val (c : ascii) : nat := nat_of_ascii c - 48.

Fixpoint all_digits (s : string) : bool :=
  match s with
  | EmptyString => true
  | String c r => is_digit c && all_digits r
  end.

(** [int(name)] for a string of decimal digits *)
Fixpoint int_of_digits (acc : nat) (s : string) : nat :=
  match s with
  | EmptyString => acc
  | String c r => int_of_digits (10 * acc + digit_val c) r
  end.

(** The pattern has 5 groups, two of them named. *)
Definition groups : nat := 5.

Definition add_group (index : nat) : result piece :=
  if (groups <? index)%nat then Raise TemplateError else Ok (Group index).

(** The group a name between [\g<] and [>] refers to. *)
Definition group_of_name (name : string) : result piece :=
  match name with
  | EmptyString => Raise TemplateError
  | String _ _ =>
      if all_digits name then add_group (int_of_digits 0 name)
      else if String.eqb name "uri" then add_group 2
      else if String.eqb name "text" then add_group 4
      else Raise TemplateError
  end.

(** The characters [\a \b \f \n \r \t \v \\] stand for. *)
Definition escape_char (c : ascii) : option ascii :=
  if Ascii.eqb c "a" then Some "007"%char
  else if Ascii.eqb c "b" then Some "008"%char
  else if Ascii.eqb c "f" then Some "012"%char
  else if Ascii.eqb c "n" then Some "010"%char
  else if Ascii.eqb c "r" then Some "013"%char
  else if Ascii.eqb c "t" then Some "009"%char
  else if Ascii.eqb c "v" then Some "011"%char
  else if Ascii.eqb c "\" then Some "\"%char
  else None.

Definition cons_piece (p : piece) (r : result (list piece)) : result (list piece) :=
  ps <- r ;; Ok (p :: ps).

(** [name] is [None] outside a group name, and [Some acc] after [\g<] with
    the characters of the name read so far.  A backslash inside a name is
    an error on every path of the parser. *)
Fixpoint parse (name : option string) (s : string) : result (list piece) :=
  match name with
  | Some acc =>
      match s with
      | EmptyString => Raise TemplateError
      | String c r =>
          if Ascii.eqb c ">"
          then g <- group_of_name acc ;; cons_piece g (parse None r)
          else if Ascii.eqb c "\" then Raise TemplateError
          else parse (Some (acc ++ String c EmptyString)) r
      end
  | None =>
      match s with
      | EmptyString => Ok []
      | String c r =>
          if negb (Ascii.eqb c "\") then cons_piece (Lit c) (parse None r)
          else
            match r with
            | EmptyString => Raise TemplateError
            | String e r1 =>
                if Ascii.eqb e "g" then
                  match r1 with
                  | String lt r2 =>
                      if Ascii.eqb lt "<" then parse (Some EmptyString) r2
                      else Raise TemplateError
                  | EmptyString => Raise TemplateError
                  end
                else if Ascii.eqb e "0" then
                  match r1 with
                  | String d1 r2 =>
                      if is_octdigit d1 then
                        match r2 with
                        | String d2 r3 =>
                            if is_octdigit d2
                            then cons_piece
                                   (Lit (ascii_of_nat
                                           ((8 * digit_val d1 + digit_val d2) mod 256)))
                                   (parse None r3)
                            else cons_piece (Lit (ascii_of_nat (digit_val d1)))
                                            (parse None r2)
                        | EmptyString =>
                            cons_piece (Lit (ascii_of_nat (digit_val d1)))
                                       (parse None r2)
                        end
                      else cons_piece (Lit zero) (parse None r1)
                  | EmptyString => cons_piece (Lit zero) (parse None r1)
                  end
                else if is_digit e then
                  match r1 with
                  | String d1 r2 =>
                      if is_digit d1 then
                        match r2 with
                        | String d2 r3 =>
                            if is_octdigit e && is_octdigit d1 && is_octdigit d2
                            then
                              let v := 64 * digit_val e + 8 * digit_val d1
                                       + digit_val d2 in
                              if (255 <? v)%nat then Raise TemplateError
                              else cons_piece (Lit (ascii_of_nat v)) (parse None r3)
                            else g <- add_group (10 * digit_val e + digit_val d1) ;;
                                 cons_piece g (parse None r2)
                        | EmptyString =>
                            g <- add_group (10 * digit_val e + digit_val d1) ;;
                            cons_piece g (parse None r2)
                        end
                      else g <- add_group (digit_val e) ;; cons_piece g (parse None r1)
                  | EmptyString =>
                      g <- add_group (digit_val e) ;; cons_piece g (parse None r1)
                  end
                else
                  match escape_char e with
                  | Some x => cons_piece (Lit x) (parse None r1)
                  | None =>
                      if is_asciiletter e then Raise TemplateError
                      else cons_piece (Lit c) (cons_piece (Lit e) (parse None r1))
                  end
            end
      end
  end.

(** The expansion of a parsed template at a match: a group that took no
    part in the match expands to the empty string. *)
Fixpoint expand (ps : list piece) (m : Re.link_match) : string :=
  match ps with
  | [] => EmptyString
  | Lit c :: ps' => String c (expand ps' m)
  | Group n :: ps' => Re.or_empty (Re.group m n) ++ expand ps' m
  end.

End Template.

(** [re.sub(pattern, repl, line, count=1)]: the template is read first, then
    the leftmost match in the whole of [line] is replaced. *)
Definition sub_first (repl line : string) : result string :=
  ps <- Template.parse None repl ;;
  match Re.search line with
  | Some (i, m) =>
      Ok (take i line ++ Template.expand ps m
          ++ skip (i + String.length (Re.whole m)) line)
  | None => Ok line
  end.

(** ** The link rewriter *)

Definition in_math (math_ranges : list (nat * nat)) (link_start : Z) : bool :=
  existsb (fun r => (Z.of_nat (fst r) <=? link_start)%Z
                    && (link_start <? Z.of_nat (snd r))%Z) math_ranges.

Fixpoint first_outside (math_ranges : list (nat * nat)) (pos : Z)
    (starts : list nat) : Z :=
  match starts with
  | [] => (-1)%Z
  | st :: rest =>
      let link_start := (pos + Z.of_nat st)%Z in
      if negb (in_math math_ranges link_start) then link_start
      else first_outside math_ranges pos rest
  end.

Definition find_next_link_start (line : string) (pos : Z) : Z :=
  let math_ranges := Re.math_spans line in
  first_outside math_ranges pos (Re.opener_starts (slice_from line pos)).

(** Lines 112 to 121: the markdown link built from a match. *)
Definition link_of_match (m : Re.link_match) : string :=
  let text := Re.group4 m in
  let uri := rstrip_char (Re.m_uri m) "|" in
  let uri1 := if negb (startswith uri "http") then replace uri ":" "/" else uri in
  let text1 := match text with
               | Some (String c t) => String c t
               | _ => uri1
               end in
  let uri2 := if negb (startswith uri1 "http") && negb (startswith uri1 "/")
              then "/" ++ uri1 else uri1 in
  "[" ++ text1 ++ "](" ++ uri2 ++ ")".

(** What the two [print] calls of the dead-loop guard write for line [i],
    whose content in [lines] is still [orig]. *)
Definition dead_loop_report (i : nat) (orig : string) : list string :=
  [ String newline "Error: we may have falled in dead loop at line "
      ++ of_nat i ++ ": " ++ orig;
    "Beak from this line, you may need to review the result." ].

(** The [while] loop on one line: the rewritten line and what was printed.
    One unit of [fuel] is spent per iteration. *)
Fixpoint link_loop (fuel : nat) (i : nat) (orig line : string) (pos : Z)
    (dead_loop_counter : nat) : result (string * list string) :=
  if (pos =? -1)%Z then Ok (line, [])
  else
    match fuel with
    | O => OutOfFuel
    | S fuel' =>
        line1 <- match Re.search (slice_from line pos) with
                 | Some (_, m) => sub_first (link_of_match m) line
                 | None => Ok line
                 end ;;
        let prvpos := pos in
        let pos1 := find_next_link_start line1 pos in
        let counter1 := if (prvpos >=? pos1)%Z then S dead_loop_counter
                        else dead_loop_counter in
        if (2 <? counter1)%nat then Ok (line1, dead_loop_report i orig)
        else link_loop fuel' i orig line1 pos1 counter1
    end.

Definition convert_line (fuel i : nat) (line : string)
  : result (string * list string) :=
  link_loop fuel i line line (find_next_link_start line 0) 0.

Fixpoint convert_links_from (fuel i : nat) (lines : list string)
  : result (list string * list string) :=
  match lines with
  | [] => Ok ([], [])
  | line :: rest =>
      '(line1, printed1) <- convert_line fuel i line ;;
      '(rest1, printed2) <- convert_links_from fuel (S i) rest ;;
      Ok (line1 :: rest1, (printed1 ++ printed2)%list)
  end.

(** [convert_links(lines)]: the rewritten lines and the printed
    diagnostics; every line's loop may run for [fuel] iterations. *)
Definition convert_links (fuel : nat) (lines : list string)
  : result (list string * list string) :=
  convert_links_from fuel 0 lines.

(** ** The pipeline driver *)

(** The characters [str.splitlines] breaks a line at, among the code points
    0..255: line feed, vertical tab, form feed, carriage return, the three
    separators 28 to 30 and next line (133). *)
Definition is_linebreak (c : ascii) : bool :=
  let n := nat_of_ascii c in
  ((10 <=? n)%nat && (n <=? 13)%nat) || ((28 <=? n)%nat && (n <=? 30)%nat)
  || (n =? 133)%nat.

(** [s.splitlines()]: the breaks are dropped, a carriage return followed by
    a line feed is one break, and no empty line is added after a final
    break. *)
Fixpoint splitlines (s : string) : list string :=
  match s with
  | EmptyString => []
  | String c r =>
      if is_linebreak c then
        EmptyString ::
          match r with
          | String d r' =>
              if Ascii.eqb c "013" && Ascii.eqb d "010" then splitlines r'
              else splitlines r
          | EmptyString => splitlines r
          end
      else match splitlines r with
           | w :: ws => String c w :: ws
           | [] => [String c EmptyString]
           end
  end.

(** [is_markdown(filename)] on the text of the file: [readline()] gives the
    empty string on an empty file, and [first_line[0]] then raises. *)
Definition is_markdown (text : string) : result bool :=
  match text with
  | EmptyString => Raise IndexError
  | String c _ => Ok (Ascii.eqb c "#")
  end.

(** [pandoc(infile)] given what the external converter wrote on its standard
    output: empty output is an error. *)
Definition pandoc (stdout : string) : result string :=
  match stdout with
  | EmptyString => Raise ValueError
  | String _ _ => Ok stdout
  end.

(** Lines 232 to 238 of [convert_file]: the passes that follow the reading
    of the lines. *)
Definition finish_file (lines : list string) (title : string)
  : result (list string) :=
  let lines1 := remove_useless_tags lines in
  lines2 <- convert_wrap lines1 ;;
  metadata <- get_metadata lines2 title ;;
  Ok (add_metadata lines2 metadata).

(** [convert_file(txtfile, title)]: [text] is the text of the file as
    [read()] gives it (both [open] calls decode it the same way), [stdout]
    what the external converter writes for that file; the converter is run
    only when the file is not markdown.  What [convert_links] prints is not
    part of the result. *)
Definition convert_file (fuel : nat) (text stdout title : string)
  : result (list string) :=
  markdown <- is_markdown text ;;
  lines <- (if markdown : bool
            then '(ls, _) <- convert_links fuel (splitlines text) ;; Ok ls
            else out <- pandoc stdout ;; Ok (split out newline)) ;;
  finish_file lines title.

(** ** The sentence unwrapper *)

(** [c.isalpha()] on the code points 0..255 *)
Definition isalpha (c : ascii) : bool :=
  let n := nat_of_ascii c in
  ((65 <=? n)%nat && (n <=? 90)%nat) || ((97 <=? n)%nat && (n <=? 122)%nat)
  || (n =? 170)%nat || (n =? 181)%nat || (n =? 186)%nat
  || ((192 <=? n)%nat && (n <=? 214)%nat) || ((216 <=? n)%nat && (n <=? 246)%nat)
  || (248 <=? n)%nat.

(** After the first digit of [[0-9]+\. ]: more digits, then a dot and a
    space. *)
Fixpoint digits_then_dot (s : string) : bool :=
  match s with
  | EmptyString => false
  | String c r =>
      if Template.is_digit c then digits_then_dot r
      else Ascii.eqb c "." && startswith r " "
  end.

(** [re.match(r"^[0-9]+\. ", line)] as a truth value *)
Definition numeric_marker (line : string) : bool :=
  match line with
  | EmptyString => false
  | String c r => Template.is_digit c && digits_then_dot r
  end.

(** [line[0]] is read only when [line.strip()] is not empty, so the line is
    not empty there. *)
Definition starts_with_text (line : string) : bool :=
  if (String.length (strip line) =? 0)%nat then false
  else
    match line with
    | EmptyString => false
    | String c _ =>
        if isalpha c || Ascii.eqb c dquote then true
        else if numeric_marker line then false
        else false
    end.

(** [s[-1]] *)
Fixpoint last_char (s : string) : option ascii :=
  match s with
  | EmptyString => None
  | String c r =>
      match last_char r with
      | Some d => Some d
      | None => Some c
      end
  end.

(** The cut of [s] at the first occurrence of a non-empty [sep]: what
    [s.split(sep, 1)] is built from. *)
Fixpoint cut_str (s sep : string) : option (string * string) :=
  if startswith s sep then Some (EmptyString, skip (String.length sep) s)
  else
    match s with
    | EmptyString => None
    | String c r =>
        match cut_str r sep with
        | Some (a, b) => Some (String c a, b)
        | None => None
        end
    end.

(** The local variables of the first loop of [unwrap_sentences]. *)
Record unwrap_state : Type := UnwrapState {
  compacted_lines : list string;
  doing_compacting : bool;
  compacted_line : string
}.

Definition unwrap_init : unwrap_state := UnwrapState [] false EmptyString.

Definition ends_sentence (line : string) : bool :=
  match last_char line with
  | Some c => Ascii.eqb c "."
  | None => false
  end.

(** One iteration of the first loop. *)
Definition unwrap_step (st : unwrap_state) (line : string) : unwrap_state :=
  if negb (doing_compacting st) then
    if (0 <? String.length line)%nat && negb (ends_sentence line)
    then UnwrapState (compacted_lines st) true line
    else UnwrapState (compacted_lines st ++ [line])%list false (compacted_line st)
  else
    if starts_with_text line
    then UnwrapState (compacted_lines st) true (compacted_line st ++ " " ++ line)
    else UnwrapState (compacted_lines st ++ [compacted_line st; line])%list
                     false EmptyString.

(** The first loop and the flush after it. *)
Definition compact (lines : list string) : list string :=
  let st := fold_left unwrap_step lines unwrap_init in
  if negb (String.eqb (compacted_line st) EmptyString)
  then (compacted_lines st ++ [compacted_line st])%list
  else compacted_lines st.

(** The inner [while] loop on one compacted line and the [append] after it;
    one unit of [fuel] is spent per iteration.  The unpacking of
    [line.split(". ", 1)] raises [ValueError] when the separator is not
    found. *)
Fixpoint split_sentences (fuel : nat) (line : string) : result (list string) :=
  if contains line ". " then
    match fuel with
    | O => OutOfFuel
    | S fuel' =>
        match cut_str line ". " with
        | Some (line1, rest) =>
            rs <- split_sentences fuel' rest ;;
            Ok ((line1 ++ ".") :: rs)
        | None => Raise ValueError
        end
    end
  else Ok [line].

Fixpoint split_all (fuel : nat) (lines : list string) : result (list string) :=
  match lines with
  | [] => Ok []
  | line :: rest =>
      rs <- split_sentences fuel line ;;
      rest' <- split_all fuel rest ;;
      Ok (rs ++ rest')%list
  end.

Definition unwrap_sentences (fuel : nat) (lines : list string)
  : result (list string) :=
  split_all fuel (compact lines).

(** ** File names *)

(** The one-character string of a code point. *)
Definition chr (n : nat) : string := String (ascii_of_nat n) EmptyString.

(** The eight letters are given by their code points: 196, 197, 201, 214
    for the capitals A with diaeresis, A with ring, E with acute, O with
    diaeresis, and 228, 229, 233, 246 for the small ones. *)
Definition convert_filename_to_unicode (line : string) : string :=
  let line := replace line "%C3%84" (chr 196) in
  let line := replace line "%C3%85" (chr 197) in
  let line := replace line "%C3%89" (chr 201) in
  let line := replace line "%C3%96" (chr 214) in
  let line := replace line "%C3%A4" (chr 228) in
  let line := replace line "%C3%A5" (chr 229) in
  let line := replace line "%C3%A9" (chr 233) in
  let line := replace line "%C3%B6" (chr 246) in
  line.

(** [tmp_prefix = os.path.join("/tmp", "dokuwiki2wikijs")]; paths are POSIX
    paths, [os.sep] is the slash. *)
Definition tmp_prefix : string := "/tmp/dokuwiki2wikijs".

(** [s.endswith("/")] *)
Definition ends_with_slash (s : string) : bool :=
  match last_char s with
  | Some c => Ascii.eqb c "/"
  | None => false
  end.

(** One step of [os.path.join]. *)
Definition path_join2 (path b : string) : string :=
  if startswith b "/" then b
  else if (String.length path =? 0)%nat || ends_with_slash path then path ++ b
  else path ++ "/" ++ b.

(** [os.path.join(a, *p)] *)
Definition path_join (a : string) (p : list string) : string :=
  fold_left path_join2 p a.

(** [l.index(x)]: [None] stands for the [ValueError] of a missing item. *)
Fixpoint list_index (x : string) (l : list string) : option nat :=
  match l with
  | [] => None
  | y :: rest =>
      if String.eqb y x then Some 0
      else option_map S (list_index x rest)
  end.

Definition temporary_file_for (pathname : string) : result string :=
  let parts := split pathname "/" in
  match list_index "data" parts with
  | Some i => Ok (path_join tmp_prefix (skipn i parts))
  | None => Raise ValueError
  end.

(** ** The user registry *)

(** An entry of the [users] dictionary. *)
Record user : Type := User { user_name : string; user_email : string }.

(** The dictionary in insertion order; assigning to a key that is present
    replaces its value in place. *)
Fixpoint dict_set (k : string) (v : user) (d : list (string * user))
  : list (string * user) :=
  match d with
  | [] => [(k, v)]
  | (k', v') :: rest =>
      if String.eqb k' k then (k, v) :: rest
      else (k', v') :: dict_set k v rest
  end.

Fixpoint dict_get (k : string) (d : list (string * user)) : option user :=
  match d with
  | [] => None
  | (k', v) :: rest => if String.eqb k' k then Some v else dict_get k rest
  end.

(** The body of the loop of [read_users] on one line of the file; [None]
    stands for the [AssertionError] of a line that has not five fields. *)
Definition read_users_line (users : list (string * user)) (line : string)
  : option (list (string * user)) :=
  if negb (startswith line "#") && (1 <? String.length line)%nat then
    match split line ":" with
    | [p0; p1; p2; p3; p4] => Some (dict_set p0 (User p2 p3) users)
    | _ => None
    end
  else Some users.

(** [read_users] on the lines of [conf/users.auth.php], from the [users]
    dictionary as it stands. *)
Fixpoint read_users (users : list (string * user)) (lines : list string)
  : option (list (string * user)) :=
  match lines with
  | [] => Some users
  | line :: rest =>
      match read_users_line users line with
      | Some users' => read_users users' rest
      | None => None
      end
  end.

(** * Vocabulary of the statements *)

(** A title between two double quotes. *)
Definition quoted (title : string) : string :=
  String dquote title ++ String dquote EmptyString.

(** The documents on which [lines[0][0]] cannot be read. *)
Definition no_first_char (lines : list string) : Prop :=
  lines = [] \/ exists rest, lines = EmptyString :: rest.

(** A uri with a leading slash, added when it has none. *)
Definition rooted (uri : string) : string :=
  if startswith uri "/" then uri else "/" ++ uri.

(** The uri as it is put between the parentheses of the link. *)
Definition link_target (uri : string) : string :=
  if startswith uri "http" then uri else rooted (replace uri ":" "/").

(** The label used when the match has no text. *)
Definition default_label (uri : string) : string :=
  if startswith uri "http" then uri else replace uri ":" "/".

(** Neither [a] nor [b] occurs in [p]. *)
Fixpoint avoids (p : string) (a b : ascii) : bool :=
  match p with
  | EmptyString => true
  | String c p' => negb (Ascii.eqb c a) && negb (Ascii.eqb c b) && avoids p' a b
  end.

(** Lines that hold no opening marker. *)
Definition unmarked (lines : list string) : Prop :=
  forall l, In l lines -> contains l "[[" = false /\ contains l "{{" = false.

(** [c] occurs in [s]. *)
Fixpoint has_char (s : string) (c : ascii) : bool :=
  match s with
  | EmptyString => false
  | String d s' => Ascii.eqb d c || has_char s' c
  end.

(** No character of [s] occurs in [t]. *)
Fixpoint disjoint (s t : string) : bool :=
  match s with
  | EmptyString => true
  | String c s' => negb (has_char t c) && disjoint s' t
  end.

(** The closing tag, as written and as escaped by the converter. *)
Definition raw_close : string := "</WRAP>".
Definition esc_close : string := "\</WRAP\>".

(** The line carries a closing tag. *)
Definition closes (line : string) : bool :=
  contains line raw_close || contains line esc_close.

(** The two replacements of a line that carries a closing tag: the tests
    look at [line], the replacements are made in [out]. *)
Definition close_tags (k line out : string) : string :=
  let out1 := if contains line raw_close then replace out raw_close k else out in
  if contains line esc_close then replace out1 esc_close k else out1.

(** The kind in force after some lines: that of the last opening line. *)
Fixpoint last_kind (k : string) (lines : list string) : string :=
  match lines with
  | [] => k
  | l :: rest =>
      last_kind (if is_open_line l
                 then match cut l ">" with
                      | Some (tag, _) => wrap_kind tag
                      | None => k
                      end
                 else k) rest
  end.

(** No closing tag occurs in [s]. *)
Definition no_tag (s : string) : Prop :=
  contains s raw_close = false /\ contains s esc_close = false.

(** The three class markers; [wrap_kind] may also return the empty
    string. *)
Definition class_marker (k : string) : Prop :=
  k = "{.is-info}" \/ k = "{.is-warning}" \/ k = "{.is-danger}".

(** Every opening line is classified to a class marker. *)
Definition classified (lines : list string) : Prop :=
  forall l tag rest, In l lines -> is_open_line l = true ->
                     cut l ">" = Some (tag, rest) -> wrap_kind tag <> EmptyString.

(** [n] copies of [(/a)] before [t]. *)
Fixpoint pad (n : nat) (t : string) : string :=
  match n with
  | O => t
  | S k => "(/a)" ++ pad k t
  end.

(** The line after [n] iterations, and the scan position then. *)
Definition grown_line (n : nat) : string := "$$[[x]]" ++ pad n "$$ [[a|[x]}}".
Definition grown_pos (n : nat) : Z := Z.of_nat (10 + 4 * n).

(** An opening marker starts at index [k] of [s]. *)
Definition opener_at (s : string) (k : nat) : Prop :=
  exists a b rest, skip k s = String a (String b rest) /\ Re.is_opener a b = true.

(** Every start reported by the scan of [s] is the index of an opening
    marker. *)
Definition starts_are_openers (s : string) : Prop :=
  forall i x, In x (Re.opener_starts_go i s) -> exists k, x = i + k /\ opener_at s k.

(** The text of group 3, empty when the group took no part. *)
Definition bar_text (b : option (option string)) : string :=
  match b with
  | None => EmptyString
  | Some None => "|"
  | Some (Some t) => "|" ++ t
  end.

(** An opening line on which [split(">", 1)] finds nothing to cut. *)
Definition open_without_gt (line : string) : Prop :=
  is_open_line line = true /\ cut line ">" = None.

(** A line with no opening tag at its start and no closing tag. *)
Definition plain_line (line : string) : Prop :=
  is_open_line line = false /\ closes line = false.

(** What a line shows inside a block quote: the text after the first [>]
    of an opening line, the line itself otherwise. *)
Definition quoted_text (line : string) : string :=
  if is_open_line line then partition_after line ">" else line.

(** The line as it comes out inside a block quote. *)
Definition quote_line (line : string) : string := "> " ++ quoted_text line.



(** The front-matter line of a key and its value. *)
Definition metadata_line (kv : string * string) : string :=
  fst kv ++ ": " ++ snd kv.

(** The eight percent codes [convert_filename_to_unicode] handles. *)
Definition percent_codes : list string :=
  ["%C3%84"; "%C3%85"; "%C3%89"; "%C3%96"; "%C3%A4"; "%C3%A5"; "%C3%A9"; "%C3%B6"].

(** The lines of the users file that [read_users] parses. *)
Definition considered (line : string) : bool :=
  negb (startswith line "#") && (1 <? String.length line)%nat.

(** No full stop followed by a space. *)
Definition one_sentence (o : string) : Prop := contains o ". " = false.

(** A line the sentence unwrapper has nothing to do on. *)
Definition settled (line : string) : Prop :=
  (line = EmptyString \/ ends_sentence line = true) /\ contains line ". " = false.

(** * Properties *)

(** ** Facts about the string operations *)

Lemma mem_In (w : string) (words : list string) :
  mem w words = true <-> In w words.
Proof.
  unfold mem. rewrite existsb_exists. split.
  - intros [x [Hin Heq]]. apply String.eqb_eq in Heq. now subst.
  - intros Hin. exists w. split; [assumption | apply String.eqb_refl].
Qed.

Lemma mem_false (w : string) (words : list string) :
  ~ In w words -> mem w words = false.
Proof.
  intros H. destruct (mem w words) eqn:E; [|reflexivity].
  apply mem_In in E. contradiction.
Qed.

Lemma cut_app (a b : string) (sep : ascii) :
  cut a sep = None -> cut (a ++ String sep b) sep = Some (a, b).
Proof.
  induction a as [|c a IH]; simpl; intros H.
  - now rewrite Ascii.eqb_refl.
  - destruct (Ascii.eqb c sep); [discriminate|].
    destruct (cut a sep) as [[x y]|]; [discriminate|].
    now rewrite IH.
Qed.

(** [partition(sep)[2]] is the text after the first separator. *)
Lemma partition_after_app (a b : string) (sep : ascii) :
  cut a sep = None -> partition_after (a ++ String sep b) sep = b.
Proof.
  intros H. unfold partition_after. now rewrite (@cut_app a b sep H).
Qed.

(** ** The severity classifier *)

Ltac mem_cases :=
  repeat match goal with
         | H : ~ (_ \/ _) |- _ => apply Decidable.not_or in H; destruct H
         | H : ~ In ?w ?ws |- _ => apply mem_false in H
         | H : In ?w ?ws |- _ => apply mem_In in H
         end.

(** C6: [wrap_kind] classifies the space-separated words of the tag by
    keyword membership, the first matching rule winning in the order
    info/notice, important/warning/caution, alert/danger, tip/help/todo,
    safety/danger; the last three rules all give [{.is-danger}], a tag with
    none of the keywords gives the empty class, and the keywords are
    case-sensitive. *)
Theorem wrap_kind_first_match (tag : string) :
  let has := fun w => In w (split tag " ") in
  let info := has "info" \/ has "notice" in
  let warning := has "important" \/ has "warning" \/ has "caution" in
  let alert := has "alert" \/ has "danger" in
  let tip := has "tip" \/ has "help" \/ has "todo" in
  let safety := has "safety" \/ has "danger" in
  (info -> wrap_kind tag = "{.is-info}") /\
  (~ info -> warning -> wrap_kind tag = "{.is-warning}") /\
  (~ info -> ~ warning -> alert -> wrap_kind tag = "{.is-danger}") /\
  (~ info -> ~ warning -> ~ alert -> tip -> wrap_kind tag = "{.is-danger}") /\
  (~ info -> ~ warning -> ~ alert -> ~ tip -> safety ->
   wrap_kind tag = "{.is-danger}") /\
  (~ info -> ~ warning -> ~ alert -> ~ tip -> ~ safety ->
   wrap_kind tag = EmptyString) /\
  wrap_kind "<WRAP Info" = EmptyString /\
  wrap_kind "<WRAP center round tip 60%" = "{.is-danger}" /\
  wrap_kind "<WRAP danger info" = "{.is-info}".
Proof.
  cbv zeta. unfold wrap_kind.
  repeat split; try reflexivity; intros;
    mem_cases;
    repeat match goal with
           | H : _ \/ _ |- _ => destruct H
           end;
    mem_cases;
    repeat match goal with
           | H : mem _ _ = _ |- _ => rewrite H
           end;
    rewrite ?orb_true_r; simpl; try reflexivity; try tauto.
Qed.

(** An instance of C6 with every premise discharged: a tag whose only
    keyword is [todo]. *)
Lemma wrap_kind_first_match_witness : wrap_kind "<WRAP todo" = "{.is-danger}".
Proof.
  refine (proj1 (proj2 (proj2 (proj2 (wrap_kind_first_match "<WRAP todo")))) _ _ _ _);
    simpl; try (intros H; intuition discriminate).
  right. right. right. left. reflexivity.
Defined.

(** ** The front-matter synthesizer *)

(** C7: for a document whose line 0 is not empty, the title is the stripped
    text after the first space of line 0 when that line starts with [#], and
    the fallback page name otherwise; the metadata value is the title between
    two double quotes; the three lines [---], [title: <value>], [---] are put
    before the body.  [# My Title] with fallback [mypage] gives the title
    [My Title]; a document with no heading gives [mypage]. *)
Theorem front_matter_title (c : ascii) (rest0 : string) (body : list string)
    (pagename : string) :
  let line0 := String c rest0 in
  let lines := line0 :: body in
  let title := if Ascii.eqb c "#" then strip (partition_after line0 " ")
               else pagename in
  first_heading_or_filename lines pagename = Ok title /\
  get_metadata lines pagename = Ok [("title", quoted title)] /\
  add_metadata lines [("title", quoted title)]
  = "---" :: ("title: " ++ quoted title) :: "---" :: lines /\
  (forall a b, cut (String "#" a) " " = None ->
     first_heading_or_filename ((String "#" a ++ String " " b) :: body) pagename
     = Ok (strip b)) /\
  get_metadata ["# My Title"; "text"] "mypage" = Ok [("title", quoted "My Title")] /\
  get_metadata ["no heading"; "text"] "mypage" = Ok [("title", quoted "mypage")] /\
  finish_file ["# My Title"; "text"] "mypage"
  = Ok ["---"; "title: " ++ quoted "My Title"; "---"; "# My Title"; "text"].
Proof.
  cbv zeta.
  assert (H1 : first_heading_or_filename (String c rest0 :: body) pagename
               = Ok (if Ascii.eqb c "#"
                     then strip (partition_after (String c rest0) " ")
                     else pagename)).
  { unfold first_heading_or_filename. now destruct (Ascii.eqb c "#"). }
  repeat split; try reflexivity.
  - exact H1.
  - unfold get_metadata. rewrite H1. reflexivity.
  - intros a b Hcut.
    change (String "#" a ++ String " " b)
      with (String "#" (a ++ String " " b)).
    unfold first_heading_or_filename. rewrite Ascii.eqb_refl.
    change (String "#" (a ++ String " " b))
      with (String "#" a ++ String " " b).
    now rewrite (@partition_after_app _ b _ Hcut).
Qed.

(** C7 at a heading with two words before the title text is cut. *)
Lemma front_matter_title_witness :
  first_heading_or_filename ["#  Two  words "; "text"] "mypage" = Ok "Two  words".
Proof.
  refine (proj1 (proj2 (proj2 (proj2
            (front_matter_title "#" EmptyString ["text"] "mypage"))))
            EmptyString " Two  words " _).
  reflexivity.
Defined.

(** ** The errors of [convert_wrap] *)

Lemma wrap_loop_result (lines : list string) :
  forall st, (exists so, wrap_loop st lines = Ok so)
             \/ wrap_loop st lines = Raise ValueError.
Proof.
  induction lines as [|line rest IH]; intros st; simpl.
  - left. now eexists.
  - assert (Hs : (exists so, wrap_step st line = Ok so)
                 \/ wrap_step st line = Raise ValueError).
    { unfold wrap_step.
      destruct (is_open_line line).
      - destruct (split1 line ">") as [|tag [|rest' [|x l]]]; simpl;
          try (right; reflexivity).
        destruct (contains rest' "</WRAP>"), (contains rest' "\</WRAP\>");
          simpl; left; eexists; reflexivity.
      - simpl.
        destruct (contains line "</WRAP>"), (contains line "\</WRAP\>");
          simpl; try (left; eexists; reflexivity);
          destruct (wrapping st); left; eexists; reflexivity. }
    destruct Hs as [[[st1 o] Hs]|Hs]; rewrite Hs; simpl.
    + destruct (IH st1) as [[[st2 os] H2]|H2]; rewrite H2; simpl.
      * left. now eexists.
      * now right.
    + now right.
Qed.

Lemma convert_wrap_result (lines : list string) :
  (exists out, convert_wrap lines = Ok out) \/ convert_wrap lines = Raise ValueError.
Proof.
  unfold convert_wrap.
  destruct (wrap_loop_result lines wrap_init) as [[[st os] H]|H]; rewrite H; simpl.
  - left. now eexists.
  - now right.
Qed.

(** ** The link rewriter: what a match holds *)

Lemma text_then_close_nonempty (s t cl : string) :
  Re.text_then_close s = Some (t, cl) -> exists c t', t = String c t'.
Proof.
  destruct s as [|c r]; simpl; [discriminate|].
  destruct (Ascii.eqb c newline); [discriminate|].
  destruct (Re.close_at r).
  - intros H. inversion H. now eexists; eexists.
  - destruct (Re.text_then_close r) as [[t0 cl0]|]; [|discriminate].
    intros H. inversion H. now eexists; eexists.
Qed.

Lemma after_uri_text (s : string) (b : option (option string)) (cl t : string) :
  Re.after_uri s = Some (b, cl) -> b = Some (Some t) -> exists c t', t = String c t'.
Proof.
  unfold Re.after_uri. intros H Hb. subst b.
  destruct s as [|c r].
  - destruct (Re.close_at EmptyString); inversion H.
  - destruct (Ascii.eqb c "|").
    + unfold Re.bar_tail in H.
      destruct (Re.text_then_close r) as [[t0 cl0]|] eqn:E.
      * inversion H. subst. eapply text_then_close_nonempty; eassumption.
      * destruct (Re.close_at r); [inversion H|].
        destruct (Re.close_at (String c r)); inversion H.
    + destruct (Re.close_at (String c r)); inversion H.
Qed.

(** The uri of a match holds no bar, so [rstrip] leaves it as it is. *)
Lemma uri_then_rest_uri (s u : string) (b : option (option string)) (cl : string) :
  Re.uri_then_rest s = Some (u, b, cl) ->
  rstrip_char u "|" = u /\ u <> EmptyString
  /\ (forall t, b = Some (Some t) -> exists c t', t = String c t').
Proof.
  revert u b cl. induction s as [|c r IH]; intros u b cl; simpl; [discriminate|].
  destruct (Ascii.eqb c "|") eqn:Ec; [discriminate|].
  destruct (Re.after_uri r) as [[b0 cl0]|] eqn:Ea.
  - intros H. inversion H. subst. simpl. rewrite Ec.
    repeat split; [discriminate|].
    intros t Ht. eapply after_uri_text; eassumption.
  - destruct (Re.uri_then_rest r) as [[[u0 b0] cl0]|] eqn:Eu; [|discriminate].
    intros H. inversion H. subst.
    destruct (IH _ _ _ eq_refl) as [Hr [Hne Ht]].
    simpl. rewrite Hr. destruct u0; [congruence|].
    repeat split; [discriminate | assumption].
Qed.

Lemma search_go_match_at (s : string) :
  forall i j m, Re.search_go i s = Some (j, m) -> exists s', Re.match_at s' = Some m.
Proof.
  induction s as [|c r IH]; intros i j m; cbn [Re.search_go].
  - discriminate.
  - destruct (Re.match_at (String c r)) eqn:E.
    + intros H. inversion H. subst. now exists (String c r).
    + apply IH.
Qed.

(** Replacing one character by another does not change whether the string
    starts with a prefix that holds neither. *)
Lemma startswith_replace_char (a b : ascii) (p : string) :
  avoids p a b = true ->
  forall u, startswith (replace_go (String a EmptyString) (String b EmptyString) 0 u) p
            = startswith u p.
Proof.
  induction p as [|c p IH]; intros Hp u.
  - now destruct (replace_go _ _ 0 u), u.
  - simpl in Hp. apply andb_prop in Hp as [Hc Hp]. apply andb_prop in Hc as [Hca Hcb].
    apply negb_true_iff in Hca, Hcb.
    destruct u as [|x u]; [reflexivity|].
    cbn [replace_go startswith String.length Nat.sub].
    rewrite andb_true_r.
    destruct (Ascii.eqb a x) eqn:Eax.
    + apply Ascii.eqb_eq in Eax. subst x.
      cbn [append startswith]. now rewrite Hcb, Hca.
    + cbn [startswith]. now rewrite (IH Hp).
Qed.

Lemma link_of_match_found (s : string) (i : nat) (m : Re.link_match) :
  Re.search s = Some (i, m) ->
  link_of_match m
  = "[" ++ match Re.group4 m with
           | Some t => t
           | None => default_label (Re.m_uri m)
           end
    ++ "](" ++ link_target (Re.m_uri m) ++ ")".
Proof.
  intros H. apply search_go_match_at in H as [s' H].
  unfold Re.match_at in H.
  destruct (Re.open_at s') as [[op r]|]; [|discriminate].
  destruct (Re.uri_then_rest r) as [[[u b] cl]|] eqn:E; [|discriminate].
  inversion H. subst m. clear H.
  destruct (uri_then_rest_uri _ E) as [Hr [_ Ht]].
  unfold link_of_match, link_target, default_label, rooted, Re.group4.
  cbn [Re.m_uri Re.m_bar].
  rewrite Hr.
  assert (Hh : startswith u "http" = false ->
               startswith (replace u ":" "/") "http" = false).
  { intros Hf. unfold replace.
    now rewrite (@startswith_replace_char ":" "/" "http" eq_refl u). }
  assert (Hb : match b with
               | Some (Some t) => exists c t', t = String c t'
               | _ => True
               end).
  { destruct b as [[t|]|]; auto. }
  destruct (startswith u "http") eqn:Eh; cbn [negb andb].
  - rewrite Eh. cbn [negb andb].
    destruct b as [[t|]|]; auto. now destruct Hb as [c [t' ->]].
  - rewrite (Hh eq_refl). cbn [negb andb].
    destruct (startswith (replace u ":" "/") "/"); cbn [negb];
      destruct b as [[t|]|]; auto; now destruct Hb as [c [t' ->]].
Qed.

(** ** Fuel

    The fuel only bounds the number of iterations: a run that ends with
    some fuel ends the same way with more. *)

Lemma link_loop_unfold (fuel i : nat) (orig line : string) (pos : Z) (c : nat) :
  link_loop fuel i orig line pos c
  = if (pos =? -1)%Z then Ok (line, [])
    else match fuel with
         | O => OutOfFuel
         | S fuel' =>
             line1 <- match Re.search (slice_from line pos) with
                      | Some (_, m) => sub_first (link_of_match m) line
                      | None => Ok line
                      end ;;
             let pos1 := find_next_link_start line1 pos in
             let counter1 := if (pos >=? pos1)%Z then S c else c in
             if (2 <? counter1)%nat then Ok (line1, dead_loop_report i orig)
             else link_loop fuel' i orig line1 pos1 counter1
         end.
Proof. destruct fuel; reflexivity. Qed.

Lemma link_loop_more_fuel (fuel : nat) :
  forall i orig line pos c r,
    link_loop fuel i orig line pos c = Ok r ->
    forall fuel', fuel <= fuel' -> link_loop fuel' i orig line pos c = Ok r.
Proof.
  induction fuel as [|f IH]; intros i orig line pos c r H fuel' Hle;
    rewrite link_loop_unfold in H |- *;
    destruct (pos =? -1)%Z; auto; try discriminate.
  destruct fuel' as [|f']; [lia|].
  destruct (match Re.search (slice_from line pos) with
            | Some (_, m) => sub_first (link_of_match m) line
            | None => Ok line
            end) as [line1| |]; cbn [bind] in H |- *; try discriminate.
  cbv zeta in H |- *.
  destruct (2 <? (if (pos >=? find_next_link_start line1 pos)%Z then S c else c))%nat;
    auto.
  apply IH; [exact H | lia].
Qed.

Lemma convert_links_from_more_fuel (fuel fuel' : nat) (lines : list string) :
  fuel <= fuel' ->
  forall i r, convert_links_from fuel i lines = Ok r ->
              convert_links_from fuel' i lines = Ok r.
Proof.
  intros Hle. induction lines as [|l lines IH]; intros i r; [auto|].
  cbn [convert_links_from]. unfold convert_line.
  destruct (link_loop fuel i l l (find_next_link_start l 0) 0) as [[l1 p1]| |] eqn:E;
    cbn [bind]; try discriminate.
  rewrite (@link_loop_more_fuel _ _ _ _ _ _ _ E _ Hle). cbn [bind].
  destruct (convert_links_from fuel (S i) lines) as [[ls p2]| |] eqn:E2;
    cbn [bind]; try discriminate.
  now rewrite (@IH _ _ E2).
Qed.

Lemma convert_links_more_fuel (fuel fuel' : nat) (lines : list string)
    (r : list string * list string) :
  convert_links fuel lines = Ok r -> fuel <= fuel' ->
  convert_links fuel' lines = Ok r.
Proof.
  intros H Hle. unfold convert_links in *.
  eapply convert_links_from_more_fuel; eassumption.
Qed.

Ltac by_run fuel0 :=
  intros; eapply (@convert_links_more_fuel fuel0);
  [vm_compute; reflexivity | lia].

(** ** The link rewriter on a marker with no text *)

(** C3, as amended: a marker with no text, or with an empty text after the
    bar, gets as label the uri with its colons replaced by slashes (the uri
    itself when it starts with [http]); the leading slash is added to the
    link target only, so [[[ns:page]]] becomes [[ns/page](/ns/page)]. *)
Theorem unlabeled_link_rewrite :
  (forall s i m,
     Re.search s = Some (i, m) -> Re.group4 m = None ->
     link_of_match m
     = "[" ++ default_label (Re.m_uri m) ++ "](" ++ link_target (Re.m_uri m) ++ ")") /\
  (forall fuel,
     convert_links (S fuel) ["[[ns:page]]"] = Ok (["[ns/page](/ns/page)"], [])) /\
  (forall fuel,
     convert_links (S fuel) ["[[ns:page|]]"] = Ok (["[ns/page](/ns/page)"], [])).
Proof.
  split; [|split; by_run 1].
  intros s i m H H0. now rewrite (link_of_match_found _ H), H0.
Qed.

(** C3 at the match of [{{wiki:logo.png}}]. *)
Lemma unlabeled_link_rewrite_witness :
  link_of_match (Re.LinkMatch "{{" "wiki:logo.png" None "}}")
  = "[wiki/logo.png](/wiki/logo.png)".
Proof.
  refine (proj1 unlabeled_link_rewrite "{{wiki:logo.png}}" 0
            (Re.LinkMatch "{{" "wiki:logo.png" None "}}") _ _); reflexivity.
Defined.

(** C3 as stated fails: the label of [[[ns:page]]] has no leading slash. *)
Lemma unlabeled_link_label_not_rooted :
  convert_links 1 ["[[ns:page]]"] = Ok (["[ns/page](/ns/page)"], [])
  /\ String.eqb "[ns/page](/ns/page)" "[/ns/page](/ns/page)" = false.
Proof.
  split; vm_compute; reflexivity.
Qed.

(** ** Math spans *)

(** The scan never stops on an opening marker that starts inside a math
    span of the line. *)
Lemma first_outside_not_in_math (ranges : list (nat * nat)) (pos : Z)
    (starts : list nat) :
  first_outside ranges pos starts = (-1)%Z
  \/ in_math ranges (first_outside ranges pos starts) = false.
Proof.
  induction starts as [|st rest IH]; simpl.
  - now left.
  - destruct (in_math ranges (pos + Z.of_nat st)) eqn:E; simpl.
    + exact IH.
    + now right.
Qed.

Lemma find_next_link_start_not_in_math (line : string) (pos : Z) :
  find_next_link_start line pos = (-1)%Z
  \/ in_math (Re.math_spans line) (find_next_link_start line pos) = false.
Proof.
  unfold find_next_link_start. apply first_outside_not_in_math.
Qed.

(** C1 fails on the code: in [$$[[x]]$$ [[a]]] the scan skips the marker of
    the math span and stops on [[[a]]] at index 10, but [re.sub] then
    replaces the leftmost match of the whole line, which is the marker inside
    the math span; the text of the math span is changed. *)
Theorem math_span_rewritten :
  Re.math_spans "$$[[x]]$$ [[a]]" = [(0, 9)]
  /\ find_next_link_start "$$[[x]]$$ [[a]]" 0 = 10%Z
  /\ sub_first "[a](/a)" "$$[[x]]$$ [[a]]" = Ok "$$[a](/a)$$ [[a]]"
  /\ (forall fuel,
        convert_links (S (S fuel)) ["$$[[x]]$$ [[a]]"]
        = Ok (["$$[a](/a)$$ [a](/a)"], [])).
Proof.
  repeat split; try (vm_compute; reflexivity). by_run 2.
Qed.

(** ** Lines without markers *)

Lemma opener_starts_go_unmarked (s : string) :
  contains s "[[" = false -> contains s "{{" = false ->
  forall i, Re.opener_starts_go i s = [].
Proof.
  induction s as [|a s IH]; intros H1 H2 i; [reflexivity|].
  destruct s as [|b r]; [reflexivity|].
  cbn [contains] in H1, H2.
  apply orb_false_iff in H1 as [H1 H1'], H2 as [H2 H2'].
  cbn [Re.opener_starts_go]. unfold Re.is_opener.
  cbn [startswith] in H1, H2. rewrite andb_true_r in H1, H2.
  rewrite (Ascii.eqb_sym a), (Ascii.eqb_sym b), H1.
  rewrite (Ascii.eqb_sym a "{"), (Ascii.eqb_sym b "{"), H2. cbn [orb].
  now apply IH.
Qed.

Lemma convert_line_unmarked (fuel i : nat) (line : string) :
  contains line "[[" = false -> contains line "{{" = false ->
  convert_line fuel i line = Ok (line, []).
Proof.
  intros H1 H2. unfold convert_line.
  assert (E : find_next_link_start line 0 = (-1)%Z).
  { unfold find_next_link_start, Re.opener_starts.
    change (slice_from line 0) with line.
    now rewrite opener_starts_go_unmarked. }
  rewrite E. now destruct fuel.
Qed.

Lemma convert_links_from_unmarked (fuel : nat) (lines : list string) :
  unmarked lines -> forall i, convert_links_from fuel i lines = Ok (lines, []).
Proof.
  induction lines as [|l rest IH]; intros Hu i; [reflexivity|].
  cbn [convert_links_from].
  destruct (Hu l (or_introl eq_refl)) as [H1 H2].
  rewrite (convert_line_unmarked fuel i _ H1 H2). cbn [bind].
  rewrite IH; [reflexivity|].
  intros l' Hl'. apply Hu. now right.
Qed.

(** C8, as amended: lines that hold no [[[] and no [{{] are returned
    unchanged, with nothing printed; so a second run changes nothing when
    the output of the first run holds no such marker. *)
Theorem convert_links_unmarked :
  (forall fuel lines,
     unmarked lines -> convert_links fuel lines = Ok (lines, [])) /\
  (forall fuel lines out printed,
     convert_links fuel lines = Ok (out, printed) ->
     unmarked out -> convert_links fuel out = Ok (out, [])).
Proof.
  split.
  - intros fuel lines Hu. now apply convert_links_from_unmarked.
  - intros fuel lines out printed _ Hu. now apply convert_links_from_unmarked.
Qed.

(** C8 on the output of a first run. *)
Lemma convert_links_unmarked_witness :
  convert_links 2 ["See [Home](/wiki/start)."; "plain text"]
  = Ok (["See [Home](/wiki/start)."; "plain text"], []).
Proof.
  refine (proj2 convert_links_unmarked 2 ["See [[wiki:start|Home]]."; "plain text"]
            ["See [Home](/wiki/start)."; "plain text"] [] _ _).
  - vm_compute. reflexivity.
  - intros l [<-|[<-|[]]]; split; reflexivity.
Defined.

(** C8 as stated fails: a line that starts with an opening marker that
    never matches uses up the three retries on the first three markers after
    it, and the fourth is rewritten by the second run only. *)
Lemma convert_links_not_idempotent :
  convert_links 3 ["[[|x [[a]] [[b]] [[c]] [[d]]"]
  = Ok (["[[|x [a](/a) [b](/b) [c](/c) [[d]]"],
        dead_loop_report 0 "[[|x [[a]] [[b]] [[c]] [[d]]")
  /\ convert_links 3 ["[[|x [a](/a) [b](/b) [c](/c) [[d]]"]
     = Ok (["[[|x [a](/a) [b](/b) [c](/c) [d](/d)"],
           dead_loop_report 0 "[[|x [a](/a) [b](/b) [c](/c) [[d]]")
  /\ String.eqb "[[|x [a](/a) [b](/b) [c](/c) [[d]]"
                "[[|x [a](/a) [b](/b) [c](/c) [d](/d)" = false.
Proof.
  repeat split; vm_compute; reflexivity.
Qed.

(** ** Occurrences that survive [replace] *)

Unset Implicit Arguments.

Lemma disjoint_tail (s : string) (c : ascii) (t : string) :
  disjoint s (String c t) = true ->
  disjoint s t = true /\ has_char s c = false.
Proof.
  induction s as [|d s IH]; simpl; [auto|].
  intros H. apply andb_prop in H as [H1 H2]. apply negb_true_iff in H1.
  apply orb_false_iff in H1 as [H1 H1']. destruct (IH H2) as [H3 H4].
  rewrite H1', H3, H4. rewrite Ascii.eqb_sym, H1. auto.
Qed.

Lemma skip_empty (k : nat) : skip k EmptyString = EmptyString.
Proof. now destruct k. Qed.

Lemma skip_length (k : nat) (s : string) :
  String.length (skip k s) <= String.length s.
Proof.
  revert s. induction k as [|k IH]; intros s; simpl; [lia|].
  destruct s as [|c s]; simpl; [lia|]. specialize (IH s). lia.
Qed.

Lemma contains_tail (c : ascii) (s p : string) :
  contains s p = true -> contains (String c s) p = true.
Proof.
  intros H. cbn [contains]. rewrite H. apply orb_true_r.
Qed.

Lemma contains_skip (k : nat) (s p : string) :
  contains (skip k s) p = true -> contains s p = true.
Proof.
  revert s. induction k as [|k IH]; intros s; simpl; [auto|].
  destruct s as [|c s]; [auto|]. intros H. apply contains_tail. now apply IH.
Qed.

Lemma contains_cons (c : ascii) (s p : string) :
  contains (String c s) p = startswith (String c s) p || contains s p.
Proof. reflexivity. Qed.

Section Replace.

Variables (o : ascii) (old' new : string).
Let old := String o old'.

(** [replace] with a non-empty [old], from the head of a string. *)
Definition rep (s : string) : string := replace_go old new 0 s.

Lemma replace_go_skip (s : string) :
  forall k, replace_go old new k s = rep (skip k s).
Proof.
  unfold rep. induction s as [|c s IH]; intros k.
  - now rewrite skip_empty.
  - destruct k as [|k]; [reflexivity|]. cbn [replace_go skip]. apply IH.
Qed.

Lemma rep_cons (c : ascii) (s : string) :
  rep (String c s)
  = if startswith (String c s) old
    then new ++ rep (skip (String.length old') s)
    else String c (rep s).
Proof.
  unfold rep at 1. cbn [replace_go].
  destruct (startswith (String c s) old); [|reflexivity].
  unfold old. cbn [String.length Nat.sub]. rewrite Nat.sub_0_r.
  now rewrite replace_go_skip.
Qed.

Variable n0 : ascii.
Variable new' : string.
Hypothesis new_nonempty : new = String n0 new'.

Lemma contains_app_disjoint (t : ascii) (T' r : string) (x : string) :
  disjoint x (String t T') = true ->
  contains (x ++ r) (String t T') = contains r (String t T').
Proof.
  induction x as [|c x IH]; intros H; [reflexivity|].
  cbn [disjoint] in H. apply andb_prop in H as [H1 H2].
  apply negb_true_iff in H1. cbn [has_char] in H1.
  apply orb_false_iff in H1 as [H1 _].
  cbn [append]. rewrite contains_cons. cbn [startswith].
  rewrite H1. cbn [andb orb]. now apply IH.
Qed.

(** A prefix of the output that shares no character with [new] is a prefix
    of the input. *)
Lemma startswith_rep (T : string) :
  disjoint new T = true ->
  forall s, startswith (rep s) T = true -> startswith s T = true.
Proof.
  induction T as [|t T IH]; intros Hd s; [reflexivity|].
  destruct (disjoint_tail _ _ _ Hd) as [Hd' Ht].
  destruct s as [|c s]; [intros H; exact H|].
  rewrite rep_cons.
  destruct (startswith (String c s) old).
  - rewrite new_nonempty. cbn [append startswith].
    rewrite new_nonempty in Hd. cbn [disjoint has_char] in Hd.
    apply andb_prop in Hd as [Hd _]. apply negb_true_iff in Hd.
    apply orb_false_iff in Hd as [Hd _]. rewrite Hd. discriminate.
  - cbn [startswith]. intros H. apply andb_prop in H as [H1 H2].
    rewrite H1. cbn [andb]. now apply IH.
Qed.

(** An occurrence in the output of a string that shares no character with
    [new] is an occurrence in the input. *)
Lemma contains_rep (t : ascii) (T' : string) :
  disjoint new (String t T') = true ->
  forall s, contains (rep s) (String t T') = true -> contains s (String t T') = true.
Proof.
  intros Hd s.
  remember (String.length s) as n eqn:Hn.
  assert (Hle : String.length s <= n) by lia. clear Hn.
  revert s Hle. induction n as [|n IH]; intros s Hle.
  - destruct s; [intros H; exact H | simpl in Hle; lia].
  - destruct s as [|c s]; [intros H; exact H|].
    simpl in Hle. rewrite rep_cons.
    destruct (startswith (String c s) old).
    + rewrite (contains_app_disjoint _ _ _ _ Hd). intros H.
      apply contains_tail. apply contains_skip with (k := String.length old').
      apply IH; [|exact H]. pose proof (skip_length (String.length old') s). lia.
    + rewrite contains_cons. intros H. apply orb_prop in H as [H|H].
      * rewrite contains_cons.
        cbn [startswith] in H |- *. apply andb_prop in H as [H1 H2].
        rewrite H1. destruct (disjoint_tail _ _ _ Hd) as [Hd' _].
        now rewrite (startswith_rep _ Hd' _ H2).
      * apply contains_tail. apply IH; [lia | exact H].
Qed.

(** No occurrence of [old] is left when [new] shares no character
    with it. *)
Lemma contains_rep_old :
  disjoint new old = true -> forall s, contains (rep s) old = false.
Proof.
  intros Hd s.
  remember (String.length s) as n eqn:Hn.
  assert (Hle : String.length s <= n) by lia. clear Hn.
  revert s Hle. induction n as [|n IH]; intros s Hle.
  - destruct s; [reflexivity | simpl in Hle; lia].
  - destruct s as [|c s]; [reflexivity|].
    simpl in Hle. rewrite rep_cons.
    destruct (startswith (String c s) old) eqn:E.
    + rewrite (contains_app_disjoint o old' _ _ Hd).
      apply IH. pose proof (skip_length (String.length old') s). lia.
    + rewrite contains_cons. rewrite (IH s) by lia. rewrite orb_false_r.
      destruct (startswith (String c (rep s)) old) eqn:E'; [|reflexivity].
      unfold old in E, E'. cbn [startswith] in E, E'.
      apply andb_prop in E' as [H1 H2].
      destruct (disjoint_tail _ _ _ Hd) as [Hd' _].
      rewrite H1, (startswith_rep _ Hd' _ H2) in E. discriminate.
Qed.

End Replace.

(** ** The admonition block rewriter, line by line *)

(** A line that does not open a block. *)
Lemma wrap_step_plain (st : wrap_state) (line : string) :
  is_open_line line = false ->
  wrap_step st line
  = Ok (if closes line
        then (WrapState (kind st) false, close_tags (kind st) line line)
        else (st, if wrapping st then "> " ++ line else line)).
Proof.
  intros H. unfold wrap_step, closes, close_tags, raw_close, esc_close.
  rewrite H. cbn [bind].
  destruct (contains line "</WRAP>"), (contains line "\</WRAP\>");
    cbn [kind wrapping orb]; try reflexivity.
  destruct st as [k w]. cbn [wrapping]. now destruct w.
Qed.

(** A line that opens a block. *)
Lemma wrap_step_open (st : wrap_state) (line tag rest : string) :
  is_open_line line = true ->
  cut line ">" = Some (tag, rest) ->
  wrap_step st line
  = Ok (if closes rest
        then (WrapState (wrap_kind tag) false,
              close_tags (wrap_kind tag) rest ("> " ++ rest))
        else (WrapState (wrap_kind tag) true, "> " ++ rest)).
Proof.
  intros H Hc. unfold wrap_step, split1, closes, close_tags, raw_close, esc_close.
  rewrite H, Hc. cbn [bind].
  destruct (contains rest "</WRAP>"), (contains rest "\</WRAP\>");
    cbn [kind wrapping orb]; reflexivity.
Qed.

Lemma wrap_step_open_cut (st : wrap_state) (line : string) (r : wrap_state * string) :
  is_open_line line = true -> wrap_step st line = Ok r ->
  exists tag rest, cut line ">" = Some (tag, rest).
Proof.
  intros H. unfold wrap_step, split1. rewrite H.
  destruct (cut line ">") as [[tag rest]|]; [intros _; now eexists; eexists|].
  cbn. discriminate.
Qed.

Lemma wrap_loop_app (a b : list string) :
  forall st,
    wrap_loop st (a ++ b)%list
    = ('(st1, o1) <- wrap_loop st a ;;
       '(st2, o2) <- wrap_loop st1 b ;;
       Ok (st2, (o1 ++ o2)%list)).
Proof.
  induction a as [|l a IH]; intros st; cbn [wrap_loop app bind].
  - destruct (wrap_loop st b) as [[st2 o2]| |]; reflexivity.
  - destruct (wrap_step st l) as [[st1 o]| |]; cbn [bind]; try reflexivity.
    rewrite IH.
    destruct (wrap_loop st1 a) as [[st2 o1]| |]; cbn [bind]; try reflexivity.
    destruct (wrap_loop st2 b) as [[st3 o2]| |]; reflexivity.
Qed.

Lemma wrap_loop_length (lines : list string) :
  forall st st' outs, wrap_loop st lines = Ok (st', outs) ->
                      List.length outs = List.length lines.
Proof.
  induction lines as [|l lines IH]; intros st st' outs; cbn [wrap_loop bind].
  - intros H. inversion H. reflexivity.
  - destruct (wrap_step st l) as [[st1 o]| |]; cbn [bind]; try discriminate.
    destruct (wrap_loop st1 lines) as [[st2 os]| |] eqn:E; cbn [bind];
      try discriminate.
    intros H. inversion H. subst. simpl. f_equal. eapply IH. eassumption.
Qed.

(** The line at index [length pre] of the output is the result of one step
    from the state reached after [pre]. *)
Lemma convert_wrap_at (pre : list string) (line : string) (post out : list string) :
  convert_wrap (pre ++ line :: post)%list = Ok out ->
  exists st outs st1 o,
    wrap_loop wrap_init pre = Ok (st, outs)
    /\ wrap_step st line = Ok (st1, o)
    /\ wrap_loop wrap_init (pre ++ [line])%list = Ok (st1, (outs ++ [o])%list)
    /\ nth_error out (List.length pre) = Some o.
Proof.
  unfold convert_wrap. rewrite wrap_loop_app.
  destruct (wrap_loop wrap_init pre) as [[st outs]| |] eqn:E; cbn [bind];
    try discriminate.
  cbn [wrap_loop].
  destruct (wrap_step st line) as [[st1 o]| |] eqn:Es; cbn [bind];
    try discriminate.
  destruct (wrap_loop st1 post) as [[st2 os]| |]; cbn [bind]; try discriminate.
  intros H. inversion H. subst out.
  exists st, outs, st1, o.
  split; [reflexivity|]. split; [exact Es|]. split.
  - rewrite wrap_loop_app, E. cbn [bind wrap_loop]. rewrite Es. reflexivity.
  - rewrite <- (wrap_loop_length _ _ _ _ E).
    rewrite nth_error_app2 by lia. now rewrite Nat.sub_diag.
Qed.

Lemma last_kind_no_open (k : string) (lines : list string) :
  (forall l, In l lines -> is_open_line l = false) -> last_kind k lines = k.
Proof.
  induction lines as [|l lines IH]; intros H; [reflexivity|].
  cbn [last_kind]. rewrite (H l (or_introl eq_refl)).
  apply IH. intros l' Hl'. apply H. now right.
Qed.

Lemma wrap_step_kind (st st1 : wrap_state) (line o : string) :
  wrap_step st line = Ok (st1, o) ->
  kind st1 = last_kind (kind st) [line].
Proof.
  intros H. cbn [last_kind].
  destruct (is_open_line line) eqn:E.
  - destruct (wrap_step_open_cut _ _ _ E H) as [tag [rest Hc]].
    rewrite (wrap_step_open st _ _ _ E Hc) in H. rewrite Hc.
    destruct (closes rest); inversion H; reflexivity.
  - rewrite (wrap_step_plain st _ E) in H.
    destruct (closes line); inversion H; reflexivity.
Qed.

Lemma wrap_loop_kind (lines : list string) :
  forall st st' outs, wrap_loop st lines = Ok (st', outs) ->
                      kind st' = last_kind (kind st) lines.
Proof.
  induction lines as [|l lines IH]; intros st st' outs; cbn [wrap_loop bind].
  - intros H. inversion H. reflexivity.
  - destruct (wrap_step st l) as [[st1 o]| |] eqn:Es; cbn [bind]; try discriminate.
    destruct (wrap_loop st1 lines) as [[st2 os]| |] eqn:E; cbn [bind];
      try discriminate.
    intros H. inversion H. subst.
    rewrite (IH _ _ _ E). pose proof (wrap_step_kind _ _ _ _ Es) as Hk.
    cbn [last_kind] in Hk |- *. now rewrite Hk.
Qed.

Lemma close_tags_quote (k s : string) :
  close_tags k s ("> " ++ s) = "> " ++ close_tags k s s.
Proof.
  unfold close_tags, raw_close, esc_close.
  destruct (contains s "</WRAP>"), (contains s "\</WRAP\>"); reflexivity.
Qed.

Lemma close_tags_none (k s out : string) :
  closes s = false -> close_tags k s out = out.
Proof.
  unfold closes, close_tags. intros H. apply orb_false_iff in H as [H1 H2].
  now rewrite H1, H2.
Qed.

(** C2, as amended: a line reached while the state is wrapping is prefixed
    with [> ] unless it carries a closing tag and opens no block.  A line
    that opens no block and carries no closing tag becomes [> ] and the
    line, the state staying wrapping.  A line that opens no block and
    carries a closing tag has every occurrence of the tag replaced by the
    kind of the open block and is not prefixed, the state being idle from
    that line on.  A line that opens a block becomes [> ] and what follows
    its first [>], where the closing tags are replaced by the kind of the
    line's own tag; the state is idle after it when there was such a tag and
    wrapping otherwise. *)
Theorem wrapping_line_rewrite (pre : list string) (line : string)
    (post : list string) (st : wrap_state) (outs out : list string) :
  wrap_loop wrap_init pre = Ok (st, outs) ->
  wrapping st = true ->
  convert_wrap (pre ++ line :: post)%list = Ok out ->
  kind st = last_kind (kind wrap_init) pre
  /\ (is_open_line line = false -> closes line = false ->
      nth_error out (List.length pre) = Some ("> " ++ line)
      /\ exists outs', wrap_loop wrap_init (pre ++ [line])%list = Ok (st, outs'))
  /\ (is_open_line line = false -> closes line = true ->
      nth_error out (List.length pre) = Some (close_tags (kind st) line line)
      /\ exists outs', wrap_loop wrap_init (pre ++ [line])%list
                       = Ok (WrapState (kind st) false, outs'))
  /\ (is_open_line line = true ->
      exists tag rest,
        cut line ">" = Some (tag, rest)
        /\ nth_error out (List.length pre)
           = Some ("> " ++ close_tags (wrap_kind tag) rest rest)
        /\ (closes rest = false -> close_tags (wrap_kind tag) rest rest = rest)
        /\ exists outs', wrap_loop wrap_init (pre ++ [line])%list
                         = Ok (WrapState (wrap_kind tag) (negb (closes rest)), outs')).
Proof.
  intros Hpre Hw Hout.
  destruct (convert_wrap_at _ _ _ _ Hout) as [st0 [outs0 [st1 [o [H1 [H2 [H3 H4]]]]]]].
  rewrite Hpre in H1. inversion H1. subst st0 outs0. clear H1.
  split; [exact (wrap_loop_kind _ _ _ _ Hpre)|].
  split; [|split].
  - intros Hopen Hc. rewrite (wrap_step_plain st _ Hopen), Hc, Hw in H2.
    inversion H2. subst st1 o. split; [exact H4 | eexists; exact H3].
  - intros Hopen Hc. rewrite (wrap_step_plain st _ Hopen), Hc in H2.
    inversion H2. subst st1 o. split; [exact H4 | eexists; exact H3].
  - intros Hopen.
    destruct (wrap_step_open_cut _ _ _ Hopen H2) as [tag [rest Hcut]].
    exists tag, rest. split; [exact Hcut|].
    rewrite (wrap_step_open st _ _ _ Hopen Hcut) in H2.
    destruct (closes rest) eqn:Hc; inversion H2; subst st1 o; cbn [negb].
    + rewrite close_tags_quote in H4.
      split; [exact H4|]. split; [discriminate|]. eexists; exact H3.
    + rewrite (close_tags_none _ _ _ Hc).
      split; [exact H4|]. split; [reflexivity|]. eexists; exact H3.
Qed.

(** C2 on the block [<WRAP important>], [Text], [</WRAP>], where the closing
    line becomes the bare class marker, and on an opening line reached while
    wrapping, which is prefixed and closed with its own kind. *)
Lemma wrapping_line_rewrite_witness :
  (nth_error ["> "; "> Text"; "{.is-warning}"] 2 = Some "{.is-warning}"
   /\ exists outs',
        wrap_loop wrap_init ["<WRAP important>"; "Text"; "</WRAP>"]
        = Ok (WrapState "{.is-warning}" false, outs'))
  /\ exists tag rest,
       cut "<WRAP tip>x</WRAP>" ">" = Some (tag, rest)
       /\ nth_error ["> "; "> a"; "> x{.is-danger}"] 2
          = Some ("> " ++ close_tags (wrap_kind tag) rest rest)
       /\ (closes rest = false -> close_tags (wrap_kind tag) rest rest = rest)
       /\ exists outs',
            wrap_loop wrap_init ["<WRAP info>"; "a"; "<WRAP tip>x</WRAP>"]
            = Ok (WrapState (wrap_kind tag) (negb (closes rest)), outs').
Proof.
  split.
  - refine (proj1 (proj2 (proj2 (@wrapping_line_rewrite
              ["<WRAP important>"; "Text"] "</WRAP>" []
              (WrapState "{.is-warning}" true) ["> "; "> Text"]
              ["> "; "> Text"; "{.is-warning}"] _ _ _))) _ _); reflexivity.
  - refine (proj2 (proj2 (proj2 (@wrapping_line_rewrite
              ["<WRAP info>"; "a"] "<WRAP tip>x</WRAP>" []
              (WrapState "{.is-info}" true) ["> "; "> a"]
              ["> "; "> a"; "> x{.is-danger}"] _ _ _))) _); reflexivity.
Defined.

(** C2 as stated fails: the line that carries the closing tag is reached in
    the wrapping state and is not prefixed with [> ]. *)
Lemma closing_line_not_prefixed :
  wrap_loop wrap_init ["<WRAP important>"; "Text"]
  = Ok (WrapState "{.is-warning}" true, ["> "; "> Text"])
  /\ convert_wrap ["<WRAP important>"; "Text"; "</WRAP>"]
     = Ok ["> "; "> Text"; "{.is-warning}"]
  /\ startswith "{.is-warning}" "> " = false.
Proof.
  repeat split; reflexivity.
Qed.

(** ** Closing tags in the output *)

Lemma wrap_kind_range (tag : string) :
  class_marker (wrap_kind tag) \/ wrap_kind tag = EmptyString.
Proof.
  unfold wrap_kind, class_marker.
  repeat match goal with
         | |- context [if ?b then _ else _] => destruct b
         end; auto.
Qed.

Lemma contains_false_true (s p : string) :
  (contains s p = true -> False) -> contains s p = false.
Proof. destruct (contains s p); intuition. Qed.

(** Replacing a tag by a class marker leaves no occurrence of that tag and
    brings no occurrence of the other one. *)
Lemma replace_marker (k s : string) :
  class_marker k ->
  contains (replace s raw_close k) raw_close = false
  /\ contains (replace s esc_close k) esc_close = false
  /\ (contains s esc_close = false -> contains (replace s raw_close k) esc_close = false)
  /\ (contains s raw_close = false -> contains (replace s esc_close k) raw_close = false).
Proof.
  intros Hk.
  assert (Hn : exists n0 new', k = String n0 new'
                               /\ disjoint k raw_close = true
                               /\ disjoint k esc_close = true).
  { destruct Hk as [Hk|[Hk|Hk]]; subst k; eexists; eexists;
      (split; [reflexivity | split; reflexivity]). }
  destruct Hn as [n0 [new' [Hk' [D1 D2]]]].
  split; [|split; [|split]].
  - exact (contains_rep_old "<" "/WRAP>" k n0 new' Hk' D1 s).
  - exact (contains_rep_old "\" "</WRAP\>" k n0 new' Hk' D2 s).
  - intros H. apply contains_false_true. intros H'.
    apply (contains_rep "<" "/WRAP>" k n0 new' Hk' "\" "</WRAP\>" D2 s) in H'.
    unfold esc_close in H. rewrite H in H'. discriminate.
  - intros H. apply contains_false_true. intros H'.
    apply (contains_rep "\" "</WRAP\>" k n0 new' Hk' "<" "/WRAP>" D1 s) in H'.
    unfold raw_close in H. rewrite H in H'. discriminate.
Qed.

Lemma contains_quote_prefix (s : string) :
  contains ("> " ++ s) raw_close = contains s raw_close
  /\ contains ("> " ++ s) esc_close = contains s esc_close.
Proof. split; reflexivity. Qed.

Lemma close_tags_no_tag (k line out : string) :
  class_marker k ->
  contains out raw_close = contains line raw_close ->
  contains out esc_close = contains line esc_close ->
  no_tag (close_tags k line out).
Proof.
  intros Hk Hr He. unfold close_tags, no_tag.
  destruct (replace_marker k out Hk) as [A [_ [C _]]].
  destruct (contains line raw_close) eqn:Er, (contains line esc_close) eqn:Ee.
  - destruct (replace_marker k (replace out raw_close k) Hk) as [_ [B [_ D]]]. auto.
  - split; [exact A | now apply C].
  - destruct (replace_marker k out Hk) as [_ [B [_ D]]]. auto.
  - auto.
Qed.

Lemma wrap_step_no_tag (st st1 : wrap_state) (line o : string) :
  class_marker (kind st) ->
  (forall tag rest, is_open_line line = true -> cut line ">" = Some (tag, rest) ->
                    wrap_kind tag <> EmptyString) ->
  wrap_step st line = Ok (st1, o) ->
  class_marker (kind st1) /\ no_tag o.
Proof.
  intros Hk Htag H.
  destruct (is_open_line line) eqn:E.
  - destruct (wrap_step_open_cut _ _ _ E H) as [tag [rest Hc]].
    rewrite (wrap_step_open st _ _ _ E Hc) in H.
    assert (Hk' : class_marker (wrap_kind tag)).
    { destruct (wrap_kind_range tag) as [Hm|Hm]; [exact Hm|].
      now elim (Htag tag rest eq_refl Hc). }
    destruct (contains_quote_prefix rest) as [P1 P2].
    destruct (closes rest) eqn:Ec; inversion H; subst; cbn [kind]; split; auto.
    + now apply close_tags_no_tag.
    + unfold closes in Ec. apply orb_false_iff in Ec as [E1 E2].
      split; [exact (eq_trans P1 E1) | exact (eq_trans P2 E2)].
  - rewrite (wrap_step_plain st _ E) in H.
    destruct (contains_quote_prefix line) as [P1 P2].
    destruct (closes line) eqn:Ec.
    + inversion H; subst; cbn [kind]; split; auto.
      now apply close_tags_no_tag.
    + unfold closes in Ec. apply orb_false_iff in Ec as [E1 E2].
      destruct (wrapping st); inversion H; subst; (split; [exact Hk|]);
        [split; [exact (eq_trans P1 E1) | exact (eq_trans P2 E2)] | now split].
Qed.

Lemma wrap_loop_no_tag (lines : list string) :
  classified lines ->
  forall st st' outs,
    class_marker (kind st) -> wrap_loop st lines = Ok (st', outs) ->
    forall o, In o outs -> no_tag o.
Proof.
  induction lines as [|l lines IH]; intros Hc st st' outs Hk; cbn [wrap_loop bind].
  - intros H. inversion H. intros o [].
  - destruct (wrap_step st l) as [[st1 o1]| |] eqn:Es; cbn [bind]; try discriminate.
    destruct (wrap_loop st1 lines) as [[st2 os]| |] eqn:E; cbn [bind];
      try discriminate.
    intros H. inversion H. subst.
    assert (Hs : class_marker (kind st1) /\ no_tag o1).
    { eapply wrap_step_no_tag; [exact Hk | | exact Es].
      intros tag rest Ho Hcut. eapply Hc; [now left | exact Ho | exact Hcut]. }
    destruct Hs as [Hk1 Hn1].
    intros o [<-|Ho]; [exact Hn1|].
    eapply IH; [ | exact Hk1 | exact E | exact Ho].
    intros l' tag rest Hl'. apply Hc. now right.
Qed.

(** C10, as amended: when every opening tag of the document is classified
    to a class marker, no line of the output holds a closing tag.  A line
    that opens no block and carries a closing tag has its occurrences
    replaced by the kind of the last opening line before it, whether that
    block was closed or not, and by [{.is-info}] when no line before it
    opens a block. *)
Theorem closing_tags_replaced :
  (forall lines out,
     classified lines -> convert_wrap lines = Ok out ->
     forall o, In o out -> no_tag o) /\
  (forall pre line post out,
     is_open_line line = false -> closes line = true ->
     convert_wrap (pre ++ line :: post)%list = Ok out ->
     nth_error out (List.length pre)
     = Some (close_tags (last_kind "{.is-info}" pre) line line)) /\
  (forall pre,
     (forall l, In l pre -> is_open_line l = false) ->
     last_kind "{.is-info}" pre = "{.is-info}") /\
  convert_wrap ["text"; "</WRAP>"] = Ok ["text"; "{.is-info}"] /\
  convert_wrap ["<WRAP important>"; "Text"; "\</WRAP\>"; "after"; "</WRAP>"]
  = Ok ["> "; "> Text"; "{.is-warning}"; "after"; "{.is-warning}"].
Proof.
  split; [|split; [|split; [|split; reflexivity]]].
  - intros lines out Hc. unfold convert_wrap.
    destruct (wrap_loop wrap_init lines) as [[st outs]| |] eqn:E; cbn [bind];
      try discriminate.
    intros H. inversion H. subst.
    eapply wrap_loop_no_tag; [exact Hc | | exact E]. now left.
  - intros pre line post out Hopen Hc Hout.
    destruct (convert_wrap_at _ _ _ _ Hout) as [st [outs [st1 [o [H1 [H2 [_ H4]]]]]]].
    rewrite (wrap_step_plain st _ Hopen), Hc in H2. inversion H2. subst.
    now rewrite H4, (wrap_loop_kind _ _ _ _ H1).
  - intros pre. apply last_kind_no_open.
Qed.

(** C10 on a stray closing tag after a closed block. *)
Lemma closing_tags_replaced_witness :
  nth_error ["> "; "{.is-danger}"; "x {.is-danger}"] 2
  = Some (close_tags (last_kind "{.is-info}" ["<WRAP alert>"; "</WRAP>"])
            "x </WRAP>" "x </WRAP>").
Proof.
  refine (proj1 (proj2 closing_tags_replaced)
            ["<WRAP alert>"; "</WRAP>"] "x </WRAP>" []
            ["> "; "{.is-danger}"; "x {.is-danger}"] _ _ _); reflexivity.
Defined.

(** C10 as stated fails: after an opening tag with no keyword the kind is
    empty, and taking the closing tag out of a line can leave one behind. *)
Lemma closing_tag_left_in_output :
  convert_wrap ["<WRAP box>"; "</WR</WRAP>AP>"] = Ok ["> "; "</WRAP>"]
  /\ contains "</WRAP>" raw_close = true.
Proof.
  split; reflexivity.
Qed.

(** ** A line on which the loop never stops *)

Lemma pad_end (n : nat) (t : string) : pad (S n) t = pad n ("(/a)" ++ t).
Proof.
  induction n as [|n IH]; [reflexivity|].
  change (pad (S (S n)) t) with ("(/a)" ++ pad (S n) t). now rewrite IH.
Qed.

Lemma skip_pad (n j : nat) (t : string) : skip (4 * n + j) (pad n t) = skip j t.
Proof.
  induction n as [|n IH]; [reflexivity|].
  replace (4 * S n + j) with (S (S (S (S (4 * n + j))))) by lia.
  exact IH.
Qed.

Lemma slice_from_nat (s : string) (k : nat) : slice_from s (Z.of_nat k) = skip k s.
Proof.
  unfold slice_from.
  destruct (Z.ltb_spec (Z.of_nat k) 0); [lia|]. now rewrite Nat2Z.id.
Qed.

Lemma math_spans_go_skip (s : string) :
  forall i k, Re.math_spans_go i k s = Re.math_spans_go (i + k) 0 (skip k s).
Proof.
  induction s as [|c s IH]; intros i k.
  - now rewrite skip_empty.
  - destruct k as [|k]; [now rewrite Nat.add_0_r|].
    cbn [Re.math_spans_go skip]. rewrite IH. f_equal. lia.
Qed.

Lemma math_body_pad (n : nat) (t : string) :
  Re.math_body (pad n ("$$" ++ t)) = Some (4 * n).
Proof.
  assert (step : forall c r, Ascii.eqb c "$" = false -> Ascii.eqb c newline = false ->
                             Re.math_body (String c r) = option_map S (Re.math_body r)).
  { intros c r H1 H2. cbn [Re.math_body]. now rewrite H1, H2. }
  induction n as [|n IH]; [reflexivity|].
  change (pad (S n) ("$$" ++ t))
    with (String "(" (String "/" (String "a" (String ")" (pad n ("$$" ++ t)))))).
  rewrite !step by reflexivity. rewrite IH. cbn [option_map].
  f_equal. lia.
Qed.

Lemma math_at_grown (n : nat) :
  Re.math_at (grown_line n) = Some (4 * n + 9).
Proof.
  unfold grown_line.
  pose proof (math_body_pad n " [[a|[x]}}") as Hb.
  change ("$$" ++ " [[a|[x]}}") with "$$ [[a|[x]}}" in Hb.
  cbn [append Re.math_at]. cbn [Ascii.eqb Bool.eqb andb].
  cbn [Re.math_body startswith Ascii.eqb Bool.eqb andb newline].
  rewrite Hb. cbn [option_map]. f_equal. lia.
Qed.

Lemma skip_grown (n j : nat) :
  skip (7 + 4 * n + j) (grown_line n) = skip j "$$ [[a|[x]}}".
Proof.
  unfold grown_line. cbn [append Nat.add skip]. apply skip_pad.
Qed.

Lemma math_spans_grown (n : nat) :
  Re.math_spans (grown_line n) = [(0, 4 * n + 9)].
Proof.
  unfold Re.math_spans.
  assert (E : exists r, grown_line n = String "$" r) by (now eexists).
  destruct E as [r E].
  assert (Hs : skip (4 * n + 8) r = " [[a|[x]}}").
  { change (skip (4 * n + 8) r) with (skip (S (4 * n + 8)) (String "$" r)).
    rewrite <- E.
    replace (S (4 * n + 8)) with (7 + 4 * n + 2) by lia.
    now rewrite skip_grown. }
  pose proof (math_at_grown n) as Hm. rewrite E in Hm |- *.
  cbn [Re.math_spans_go]. rewrite Hm.
  rewrite math_spans_go_skip.
  replace (4 * n + 9 - 1) with (4 * n + 8) by lia.
  rewrite Hs. reflexivity.
Qed.

(** The leftmost match of the whole line is the marker in the math span,
    and replacing it by the link adds one more copy of [(/a)]. *)
Lemma sub_first_grown (n : nat) :
  sub_first "[[x]](/a)" (grown_line n) = Ok (grown_line (S n)).
Proof.
  unfold sub_first, grown_line.
  change (Template.parse None "[[x]](/a)")
    with (Ok (map Template.Lit (list_ascii_of_string "[[x]](/a)"))).
  cbn [bind].
  change (Re.search ("$$[[x]]" ++ pad n "$$ [[a|[x]}}"))
    with (Some (2, Re.LinkMatch "[[" "x" None "]]")).
  reflexivity.
Qed.

(** From the scan position the only match is the marker after the math
    span; its link holds a marker of its own. *)
Lemma search_at_grown_pos (n : nat) :
  Re.search (slice_from (grown_line n) (grown_pos n))
  = Some (0, Re.LinkMatch "[[" "a" (Some (Some "[x]")) "}}")
  /\ link_of_match (Re.LinkMatch "[[" "a" (Some (Some "[x]")) "}}") = "[[x]](/a)".
Proof.
  unfold grown_pos. rewrite slice_from_nat.
  replace (10 + 4 * n) with (7 + 4 * n + 3) by lia.
  rewrite skip_grown. split; reflexivity.
Qed.

Lemma find_next_grown (n : nat) :
  find_next_link_start (grown_line (S n)) (grown_pos n) = grown_pos (S n).
Proof.
  unfold find_next_link_start. rewrite math_spans_grown.
  unfold grown_pos. rewrite slice_from_nat.
  assert (E : skip (10 + 4 * n) (grown_line (S n)) = ")$$ [[a|[x]}}").
  { unfold grown_line. rewrite pad_end.
    change ("$$[[x]]" ++ pad n ("(/a)" ++ "$$ [[a|[x]}}"))
      with (String "$" (String "$" (String "[" (String "[" (String "x"
              (String "]" (String "]" (pad n "(/a)$$ [[a|[x]}}")))))))).
    replace (10 + 4 * n) with (S (S (S (S (S (S (S (4 * n + 3)))))))) by lia.
    cbn [skip]. now rewrite skip_pad. }
  rewrite E.
  change (Re.opener_starts ")$$ [[a|[x]}}") with [4].
  cbn [first_outside in_math existsb fst snd orb].
  replace (Z.of_nat (10 + 4 * n) + Z.of_nat 4)%Z with (Z.of_nat (10 + 4 * S n)) by lia.
  destruct (Z.ltb_spec (Z.of_nat (10 + 4 * S n)) (Z.of_nat (4 * S n + 9))); [lia|].
  rewrite andb_false_r. reflexivity.
Qed.

(** The loop never stops from the state reached after [n] iterations. *)
Lemma link_loop_grown (fuel : nat) :
  forall n i orig,
    link_loop fuel i orig (grown_line n) (grown_pos n) 0 = OutOfFuel.
Proof.
  induction fuel as [|fuel IH]; intros n i orig.
  - cbn [link_loop]. destruct (Z.eqb_spec (grown_pos n) (-1)); [|reflexivity].
    unfold grown_pos in *. lia.
  - cbn [link_loop]. destruct (Z.eqb_spec (grown_pos n) (-1)) as [e|_].
    { unfold grown_pos in e. lia. }
    destruct (search_at_grown_pos n) as [Hs Hl]. rewrite Hs, Hl.
    rewrite sub_first_grown. cbn [bind]. rewrite find_next_grown.
    destruct (Z.geb_spec (grown_pos n) (grown_pos (S n))) as [g|_].
    { unfold grown_pos in g. lia. }
    cbn [Nat.ltb Nat.leb]. apply IH.
Qed.

(** C4 fails on the code: on the line [$$[[x]]$$ [[a|[x]}}] the loop of
    [convert_links] never ends, whatever the number of iterations allowed.
    Each iteration finds the marker after the math span, replaces the marker
    inside the math span by the link [[[x]](/a)], which holds that marker
    again, and moves the scan position forward by four characters, so the
    retry counter never grows. *)
Theorem convert_links_diverges :
  find_next_link_start "$$[[x]]$$ [[a|[x]}}" 0 = 10%Z
  /\ sub_first "[[x]](/a)" "$$[[x]]$$ [[a|[x]}}" = Ok "$$[[x]](/a)$$ [[a|[x]}}"
  /\ find_next_link_start "$$[[x]](/a)$$ [[a|[x]}}" 10 = 14%Z
  /\ forall fuel rest,
       convert_links fuel ("$$[[x]]$$ [[a|[x]}}" :: rest) = OutOfFuel.
Proof.
  split; [vm_compute; reflexivity|].
  split; [vm_compute; reflexivity|].
  split; [vm_compute; reflexivity|].
  intros fuel rest. unfold convert_links. cbn [convert_links_from].
  unfold convert_line.
  change (find_next_link_start "$$[[x]]$$ [[a|[x]}}" 0) with (grown_pos 0).
  change "$$[[x]]$$ [[a|[x]}}" with (grown_line 0) at 2.
  now rewrite link_loop_grown.
Qed.

(** * Further properties of the passes *)

(** ** The scan for the next opening marker *)

Lemma skip_skip (a : nat) :
  forall b s, skip a (skip b s) = skip (b + a) s.
Proof.
  intros b. induction b as [|b IH]; intros s; [reflexivity|].
  destruct s as [|c s]; [now rewrite !skip_empty|]. exact (IH s).
Qed.

Lemma opener_starts_go_openers (s : string) :
  starts_are_openers s /\ forall c, starts_are_openers (String c s).
Proof.
  induction s as [|a s [IH1 IH2]].
  - split; [intros i x [] | intros c i x []].
  - split; [apply IH2|].
    intros c i x. cbn [Re.opener_starts_go].
    destruct (Re.is_opener c a) eqn:E.
    + intros [<-|Hin].
      * exists 0. split; [lia|]. exists c, a, s. now split.
      * destruct (IH1 _ _ Hin) as [k [-> Hk]].
        exists (2 + k). split; [lia | exact Hk].
    + intros Hin. destruct (IH2 a _ _ Hin) as [k [-> Hk]].
      exists (1 + k). split; [lia | exact Hk].
Qed.

Lemma first_outside_found (ranges : list (nat * nat)) (pos : Z) (starts : list nat) :
  first_outside ranges pos starts = (-1)%Z
  \/ exists st, In st starts
                /\ first_outside ranges pos starts = (pos + Z.of_nat st)%Z
                /\ in_math ranges (pos + Z.of_nat st) = false.
Proof.
  induction starts as [|st rest IH]; cbn [first_outside]; [now left|].
  destruct (in_math ranges (pos + Z.of_nat st)) eqn:E; cbn [negb].
  - destruct IH as [IH|[st' [Hin [H1 H2]]]]; [now left|].
    right. exists st'. split; [now right | now split].
  - right. exists st. split; [now left | now split].
Qed.

Lemma slice_from_nonneg (s : string) (pos : Z) :
  (0 <= pos)%Z -> slice_from s pos = skip (Z.to_nat pos) s.
Proof.
  intros H. unfold slice_from. destruct (Z.ltb_spec pos 0); [lia | reflexivity].
Qed.

Lemma find_next_link_start_found (line : string) (pos r : Z) :
  (0 <= pos)%Z ->
  find_next_link_start line pos = r ->
  r = (-1)%Z
  \/ ((pos <= r)%Z
      /\ opener_at line (Z.to_nat r)
      /\ in_math (Re.math_spans line) r = false).
Proof.
  intros Hpos <-. unfold find_next_link_start.
  destruct (first_outside_found (Re.math_spans line) pos
              (Re.opener_starts (slice_from line pos)))
    as [H|[st [Hin [H1 H2]]]]; [now left|].
  right. rewrite H1. split; [lia|]. split; [|exact H2].
  unfold Re.opener_starts in Hin.
  destruct (proj1 (opener_starts_go_openers _) _ _ Hin) as [k [-> [a [b [rest [Hs Ho]]]]]].
  rewrite (slice_from_nonneg _ _ Hpos), skip_skip in Hs.
  exists a, b, rest. split; [|exact Ho].
  replace (Z.to_nat (pos + Z.of_nat (0 + k))) with (Z.to_nat pos + k) by lia.
  exact Hs.
Qed.

(** X1: What [find_next_link_start] returns for a position that is not
    negative: -1, or an index not before [pos] at which an opening marker
    starts and which lies in no math span of the line. *)
Theorem find_next_link_start_spec (line : string) (pos r : Z) :
  (0 <= pos)%Z ->
  find_next_link_start line pos = r ->
  r = (-1)%Z
  \/ ((pos <= r)%Z
      /\ opener_at line (Z.to_nat r)
      /\ in_math (Re.math_spans line) r = false).
Proof. exact (find_next_link_start_found line pos r). Qed.

(** The scan of [see $$[[m]]$$ {{img.png}}] from 0 stops on the embed
    marker at index 14. *)
Lemma find_next_link_start_spec_witness :
  (14%Z = (-1)%Z)
  \/ ((0 <= 14)%Z
      /\ opener_at "see $$[[m]]$$ {{img.png}}" (Z.to_nat 14)
      /\ in_math (Re.math_spans "see $$[[m]]$$ {{img.png}}") 14 = false).
Proof.
  refine (find_next_link_start_spec "see $$[[m]]$$ {{img.png}}" 0 14 _ _).
  - lia.
  - vm_compute. reflexivity.
Defined.

(** ** Matches and their replacement *)

Lemma startswith_split (p : string) :
  forall s, startswith s p = true -> s = p ++ skip (String.length p) s.
Proof.
  induction p as [|a p IH]; intros s H; [reflexivity|].
  destruct s as [|b s]; [discriminate|].
  cbn [startswith] in H. apply andb_prop in H as [H1 H2].
  apply Ascii.eqb_eq in H1. subst b. cbn [append String.length skip].
  f_equal. now apply IH.
Qed.

Lemma append_assoc (a b c : string) : (a ++ b) ++ c = a ++ b ++ c.
Proof. induction a as [|x a IH]; [reflexivity|]. cbn [append]. now rewrite IH. Qed.

Lemma append_length (a b : string) :
  String.length (a ++ b) = String.length a + String.length b.
Proof. induction a as [|x a IH]; [reflexivity|]. cbn. now rewrite IH. Qed.

Lemma skip_append (a b : string) : skip (String.length a) (a ++ b) = b.
Proof. induction a as [|x a IH]; [reflexivity|]. exact IH. Qed.

Lemma take_skip (n : nat) : forall s, take n s ++ skip n s = s.
Proof.
  induction n as [|n IH]; intros s; [reflexivity|].
  destruct s as [|c s]; [reflexivity|]. cbn [take skip append]. now rewrite IH.
Qed.

Lemma close_at_split (s cl : string) :
  Re.close_at s = Some cl ->
  (cl = "]]" \/ cl = "}}") /\ exists rest, s = cl ++ rest.
Proof.
  unfold Re.close_at.
  destruct (startswith s "]]") eqn:E1.
  - intros H. inversion H. subst. split; [now left|].
    eexists. exact (startswith_split _ _ E1).
  - destruct (startswith s "}}") eqn:E2; [|discriminate].
    intros H. inversion H. subst. split; [now right|].
    eexists. exact (startswith_split _ _ E2).
Qed.

Lemma text_then_close_split (s : string) :
  forall t cl, Re.text_then_close s = Some (t, cl) ->
    (cl = "]]" \/ cl = "}}") /\ exists rest, s = t ++ cl ++ rest.
Proof.
  induction s as [|c r IH]; intros t cl; cbn [Re.text_then_close]; [discriminate|].
  destruct (Ascii.eqb c newline); [discriminate|].
  destruct (Re.close_at r) as [cl0|] eqn:Ec.
  - intros H. inversion H. subst.
    destruct (close_at_split _ _ Ec) as [Hcl [rest ->]].
    split; [exact Hcl|]. now exists rest.
  - destruct (Re.text_then_close r) as [[t0 cl0]|]; [|discriminate].
    intros H. inversion H. subst.
    destruct (IH _ _ eq_refl) as [Hcl [rest ->]].
    split; [exact Hcl|]. now exists rest.
Qed.

Lemma after_uri_split (s : string) (b : option (option string)) (cl : string) :
  Re.after_uri s = Some (b, cl) ->
  (cl = "]]" \/ cl = "}}") /\ exists rest, s = bar_text b ++ cl ++ rest.
Proof.
  unfold Re.after_uri.
  assert (Hclose : forall b0,
             match Re.close_at s with
             | Some cl0 => Some (@None (option string), cl0)
             | None => None
             end = Some (b0, cl) ->
             (cl = "]]" \/ cl = "}}") /\ exists rest, s = bar_text b0 ++ cl ++ rest).
  { intros b0. destruct (Re.close_at s) as [cl0|] eqn:Ec; [|discriminate].
    intros H. inversion H. subst. exact (close_at_split _ _ Ec). }
  destruct s as [|c r]; [apply Hclose|].
  destruct (Ascii.eqb c "|") eqn:Eb; [|apply Hclose].
  apply Ascii.eqb_eq in Eb. subst c.
  unfold Re.bar_tail.
  destruct (Re.text_then_close r) as [[t0 cl0]|] eqn:Et.
  - intros H. inversion H. subst.
    destruct (text_then_close_split _ _ _ Et) as [Hcl [rest ->]].
    split; [exact Hcl|]. now exists rest.
  - destruct (Re.close_at r) as [cl0|] eqn:Ec.
    + intros H. inversion H. subst.
      destruct (close_at_split _ _ Ec) as [Hcl [rest ->]].
      split; [exact Hcl|]. now exists rest.
    + apply Hclose.
Qed.

Lemma uri_then_rest_split (s : string) :
  forall u b cl, Re.uri_then_rest s = Some (u, b, cl) ->
    (cl = "]]" \/ cl = "}}") /\ has_char u "|" = false
    /\ exists rest, s = u ++ bar_text b ++ cl ++ rest.
Proof.
  induction s as [|c r IH]; intros u b cl; cbn [Re.uri_then_rest]; [discriminate|].
  destruct (Ascii.eqb c "|") eqn:Ec; [discriminate|].
  destruct (Re.after_uri r) as [[b0 cl0]|] eqn:Ea.
  - intros H. inversion H. subst.
    destruct (after_uri_split _ _ _ Ea) as [Hcl [rest ->]].
    split; [exact Hcl|]. split; [cbn [has_char]; now rewrite Ec|]. now exists rest.
  - destruct (Re.uri_then_rest r) as [[[u0 b0] cl0]|]; [|discriminate].
    intros H. inversion H. subst.
    destruct (IH _ _ _ eq_refl) as [Hcl [Hu [rest ->]]].
    split; [exact Hcl|]. split; [cbn [has_char]; now rewrite Ec, Hu|]. now exists rest.
Qed.

Lemma whole_bar_text (m : Re.link_match) :
  Re.whole m = Re.m_open m ++ Re.m_uri m ++ bar_text (Re.m_bar m) ++ Re.m_close m.
Proof.
  unfold Re.whole, Re.group3, bar_text. now destruct (Re.m_bar m) as [[t|]|].
Qed.

Lemma match_at_split (s : string) (m : Re.link_match) :
  Re.match_at s = Some m ->
  (Re.m_open m = "[[" \/ Re.m_open m = "{{")
  /\ (Re.m_close m = "]]" \/ Re.m_close m = "}}")
  /\ has_char (Re.m_uri m) "|" = false
  /\ exists rest, s = Re.whole m ++ rest.
Proof.
  unfold Re.match_at, Re.open_at.
  destruct s as [|a [|b r]]; try discriminate.
  assert (Hr : forall op, String a (String b r) = op ++ r ->
               (op = "[[" \/ op = "{{") ->
               match Re.uri_then_rest r with
               | Some (u, b0, cl) => Some (Re.LinkMatch op u b0 cl)
               | None => None
               end = Some m ->
               (Re.m_open m = "[[" \/ Re.m_open m = "{{")
               /\ (Re.m_close m = "]]" \/ Re.m_close m = "}}")
               /\ has_char (Re.m_uri m) "|" = false
               /\ exists rest, String a (String b r) = Re.whole m ++ rest).
  { intros op Hop Hk.
    destruct (Re.uri_then_rest r) as [[[u b0] cl]|] eqn:E; [|discriminate].
    intros H. inversion H. subst m.
    destruct (uri_then_rest_split _ _ _ _ E) as [Hcl [Hu [rest Hs]]].
    rewrite whole_bar_text. cbn [Re.m_open Re.m_close Re.m_uri Re.m_bar].
    repeat split; auto. exists rest. rewrite Hop, Hs.
    now rewrite !append_assoc. }
  destruct (Ascii.eqb a "[" && Ascii.eqb b "[") eqn:E1.
  - apply andb_prop in E1 as [Ea Eb].
    apply Ascii.eqb_eq in Ea, Eb. subst. apply Hr; auto.
  - destruct (Ascii.eqb a "{" && Ascii.eqb b "{") eqn:E2; [|discriminate].
    apply andb_prop in E2 as [Ea Eb].
    apply Ascii.eqb_eq in Ea, Eb. subst. apply Hr; auto.
Qed.

Lemma search_go_split (s : string) :
  forall i j m, Re.search_go i s = Some (j, m) ->
    exists k, j = i + k /\ Re.match_at (skip k s) = Some m.
Proof.
  induction s as [|c r IH]; intros i j m; cbn [Re.search_go].
  - discriminate.
  - destruct (Re.match_at (String c r)) eqn:E.
    + intros H. inversion H. subst. exists 0. split; [lia | exact E].
    + intros H. destruct (IH _ _ _ H) as [k [-> Hk]].
      exists (S k). split; [lia | exact Hk].
Qed.

(** A template with no backslash stands for itself. *)
Lemma parse_plain (s : string) :
  has_char s "\" = false ->
  exists ps, Template.parse None s = Ok ps /\ forall m, Template.expand ps m = s.
Proof.
  induction s as [|c s IH]; intros H.
  - exists []. now split.
  - cbn [has_char] in H. apply orb_false_iff in H as [Hc Hs].
    destruct (IH Hs) as [ps [Hp He]].
    exists (Template.Lit c :: ps). cbn [Template.parse]. rewrite Hc. cbn [negb].
    unfold Template.cons_piece. rewrite Hp. cbn [bind]. split; [reflexivity|].
    intros m. cbn [Template.expand]. now rewrite He.
Qed.

(** X2: The match found by [re.search] is an occurrence of the pattern in the
    string: an opening marker, a uri with no bar, the optional bar and text,
    a closing marker of either kind.  A link that holds no backslash is put
    by [re.sub] in place of exactly that occurrence, the rest of the line
    being kept. *)
Theorem sub_first_replaces_match (link line : string) (i : nat) (m : Re.link_match) :
  has_char link "\" = false ->
  Re.search line = Some (i, m) ->
  (Re.m_open m = "[[" \/ Re.m_open m = "{{")
  /\ (Re.m_close m = "]]" \/ Re.m_close m = "}}")
  /\ has_char (Re.m_uri m) "|" = false
  /\ exists rest,
       line = take i line ++ Re.whole m ++ rest
       /\ sub_first link line = Ok (take i line ++ link ++ rest).
Proof.
  intros Hl Hs.
  destruct (search_go_split _ _ _ _ Hs) as [k [Hk Hm]]. cbn in Hk. subst k.
  destruct (match_at_split _ _ Hm) as [Ho [Hc [Hu [rest Hr]]]].
  repeat split; auto. exists rest. split.
  - rewrite <- Hr. now rewrite take_skip.
  - unfold sub_first. destruct (parse_plain _ Hl) as [ps [Hp He]].
    rewrite Hp. cbn [bind]. rewrite Hs, He.
    rewrite <- skip_skip, Hr, skip_append. reflexivity.
Qed.

(** The first match of a line with two markers, the first with a closing
    marker of the other kind. *)
Lemma sub_first_replaces_match_witness :
  (Re.m_open (Re.LinkMatch "[[" "a:b" None "}}") = "[["
   \/ Re.m_open (Re.LinkMatch "[[" "a:b" None "}}") = "{{")
  /\ (Re.m_close (Re.LinkMatch "[[" "a:b" None "}}") = "]]"
      \/ Re.m_close (Re.LinkMatch "[[" "a:b" None "}}") = "}}")
  /\ has_char (Re.m_uri (Re.LinkMatch "[[" "a:b" None "}}")) "|" = false
  /\ exists rest,
       "x [[a:b}} [[c]]"
       = take 2 "x [[a:b}} [[c]]" ++ Re.whole (Re.LinkMatch "[[" "a:b" None "}}") ++ rest
       /\ sub_first "[a/b](/a/b)" "x [[a:b}} [[c]]"
          = Ok (take 2 "x [[a:b}} [[c]]" ++ "[a/b](/a/b)" ++ rest).
Proof.
  refine (sub_first_replaces_match "[a/b](/a/b)" "x [[a:b}} [[c]]" 2
            (Re.LinkMatch "[[" "a:b" None "}}") _ _); reflexivity.
Defined.

(** ** The pass over the lines *)

(** X3: [convert_links] returns as many lines as it was given. *)
Theorem convert_links_length (fuel : nat) (lines out printed : list string) :
  convert_links fuel lines = Ok (out, printed) ->
  List.length out = List.length lines.
Proof.
  unfold convert_links. generalize 0 as i. revert out printed.
  induction lines as [|l lines IH]; intros out printed i; cbn [convert_links_from].
  - intros H. inversion H. reflexivity.
  - destruct (convert_line fuel i l) as [[l1 p1]| |]; cbn [bind]; try discriminate.
    destruct (convert_links_from fuel (S i) lines) as [[ls p2]| |] eqn:E;
      cbn [bind]; try discriminate.
    intros H. inversion H. subst. cbn [List.length]. f_equal.
    exact (IH _ _ _ E).
Qed.

Lemma convert_links_length_witness :
  List.length ["[a](/a)"; "text"; "[y](/x)"] = List.length ["[[a]]"; "text"; "{{x|y}}"].
Proof.
  refine (convert_links_length 2 ["[[a]]"; "text"; "{{x|y}}"]
            ["[a](/a)"; "text"; "[y](/x)"] [] _).
  vm_compute. reflexivity.
Defined.

(** The scan started again at an opening marker it has found stays on it. *)
Lemma find_next_link_start_again (line : string) (p : Z) :
  find_next_link_start line 0 = p -> p <> (-1)%Z ->
  find_next_link_start line p = p.
Proof.
  intros H Hp.
  destruct (find_next_link_start_found line 0 p (Z.le_refl 0) H)
    as [Hm|[Hle [[a [b [rest [Hs Ho]]]] Hmath]]]; [contradiction|].
  unfold find_next_link_start.
  rewrite (slice_from_nonneg _ _ Hle), Hs.
  unfold Re.opener_starts. cbn [Re.opener_starts_go]. rewrite Ho.
  cbn [first_outside].
  replace (p + Z.of_nat 0)%Z with p by lia.
  now rewrite Hmath.
Qed.

Lemma convert_links_from_skip_unmarked (fuel : nat) (pre rest : list string) :
  unmarked pre ->
  forall i,
    convert_links_from fuel i (pre ++ rest)%list
    = ('(r, p) <- convert_links_from fuel (i + List.length pre) rest ;;
       Ok ((pre ++ r)%list, p)).
Proof.
  induction pre as [|l pre IH]; intros Hu i.
  - cbn [app List.length]. rewrite Nat.add_0_r.
    now destruct (convert_links_from fuel i rest) as [[r p]| |].
  - cbn [app convert_links_from List.length].
    destruct (Hu l (or_introl eq_refl)) as [H1 H2].
    rewrite (@convert_line_unmarked fuel i l H1 H2). cbn [bind].
    rewrite IH by (intros l' Hl'; apply Hu; now right).
    replace (S i + List.length pre) with (i + S (List.length pre)) by lia.
    now destruct (convert_links_from fuel (i + S (List.length pre)) rest)
      as [[r p]| |].
Qed.

(** X4: The dead-loop guard: when no match is found from the first opening
    marker outside the math spans of a line, three iterations leave the scan
    position where it is, the line is given up unchanged and the two report
    lines are printed, with the index of the line and its content; the lines
    after it are still processed. *)
Theorem dead_loop_guard_gives_up (fuel : nat) (pre post : list string)
    (line : string) (p : Z) :
  3 <= fuel ->
  unmarked pre -> unmarked post ->
  find_next_link_start line 0 = p -> p <> (-1)%Z ->
  Re.search (slice_from line p) = None ->
  convert_links fuel (pre ++ line :: post)%list
  = Ok ((pre ++ line :: post)%list, dead_loop_report (List.length pre) line).
Proof.
  intros Hf Hpre Hpost Hp Hne Hs.
  pose proof (find_next_link_start_again line p Hp Hne) as Hagain.
  assert (Hge : (p >=? p)%Z = true) by (apply Z.geb_le; lia).
  assert (Hm1 : (p =? -1)%Z = false) by (apply Z.eqb_neq; exact Hne).
  assert (Hline : forall i, convert_line fuel i line
                            = Ok (line, dead_loop_report i line)).
  { intros i. unfold convert_line. rewrite Hp.
    destruct fuel as [|[|[|f]]]; try lia.
    do 3 (rewrite link_loop_unfold, Hm1, Hs; cbn [bind]; cbv zeta;
          rewrite Hagain, Hge; cbn [Nat.ltb Nat.leb]).
    reflexivity. }
  unfold convert_links.
  rewrite (convert_links_from_skip_unmarked fuel pre (line :: post) Hpre 0).
  cbn [convert_links_from Nat.add]. rewrite Hline. cbn [bind].
  rewrite (@convert_links_from_unmarked fuel post Hpost). cbn [bind].
  now rewrite app_nil_r.
Qed.

(** A marker that is never closed, on the second line of three. *)
Lemma dead_loop_guard_gives_up_witness :
  convert_links 3 (["intro"] ++ "see [[wiki:start" :: ["end"])%list
  = Ok ((["intro"] ++ "see [[wiki:start" :: ["end"])%list,
        dead_loop_report (List.length ["intro"]) "see [[wiki:start").
Proof.
  refine (dead_loop_guard_gives_up 3 ["intro"] ["end"] "see [[wiki:start" 4 _ _ _ _ _ _).
  - lia.
  - intros l [<-|[]]; split; reflexivity.
  - intros l [<-|[]]; split; reflexivity.
  - reflexivity.
  - discriminate.
  - reflexivity.
Defined.

(** ** The admonition block rewriter as a whole *)

Lemma wrap_step_raises (st : wrap_state) (line : string) :
  (open_without_gt line /\ wrap_step st line = Raise ValueError)
  \/ (~ open_without_gt line /\ exists r, wrap_step st line = Ok r).
Proof.
  unfold open_without_gt.
  destruct (is_open_line line) eqn:E.
  - destruct (cut line ">") as [[tag rest]|] eqn:Ec.
    + right. split; [intros [_ H]; discriminate|].
      rewrite (wrap_step_open st _ _ _ E Ec). now eexists.
    + left. split; [now split|].
      unfold wrap_step, split1. now rewrite E, Ec.
  - right. split; [intros [H _]; discriminate|].
    rewrite (wrap_step_plain st _ E). now eexists.
Qed.

Lemma wrap_loop_raises (lines : list string) :
  forall st,
    ((exists l, In l lines /\ open_without_gt l)
     /\ wrap_loop st lines = Raise ValueError)
    \/ ((forall l, In l lines -> ~ open_without_gt l)
        /\ exists r, wrap_loop st lines = Ok r).
Proof.
  induction lines as [|l lines IH]; intros st; cbn [wrap_loop].
  - right. split; [intros l [] | now eexists].
  - destruct (wrap_step_raises st l) as [[Ho Hs]|[Ho [[st1 o] Hs]]]; rewrite Hs;
      cbn [bind].
    + left. split; [|reflexivity]. exists l. split; [now left | exact Ho].
    + destruct (IH st1) as [[[l' [Hin Hl']] Hr]|[Hall [[st2 os] Hr]]]; rewrite Hr;
        cbn [bind].
      * left. split; [|reflexivity]. exists l'. split; [now right | exact Hl'].
      * right. split; [|now eexists].
        intros l' [<-|Hin]; [exact Ho | now apply Hall].
Qed.

(** X5: [convert_wrap] fails exactly when some line starts with an opening tag
    and holds no [>]: the unpacking of [line.split(">", 1)] then raises
    [ValueError]; on every other document it returns. *)
Theorem convert_wrap_fails_iff (lines : list string) :
  (convert_wrap lines = Raise ValueError
   <-> exists l, In l lines /\ open_without_gt l)
  /\ ((exists out, convert_wrap lines = Ok out)
      <-> forall l, In l lines -> ~ open_without_gt l).
Proof.
  unfold convert_wrap.
  destruct (wrap_loop_raises lines wrap_init)
    as [[[l [Hin Hl]] Hr]|[Hall [[st os] Hr]]]; rewrite Hr; cbn [bind].
  - split; split; auto.
    + intros _. now exists l.
    + intros [out H]. discriminate.
    + intros H. elim (H l Hin Hl).
  - split; split; auto.
    + discriminate.
    + intros [l [Hin Hl]]. elim (Hall l Hin Hl).
    + intros _. now eexists.
Qed.

Lemma convert_wrap_length_aux (lines out : list string) :
  convert_wrap lines = Ok out -> List.length out = List.length lines.
Proof.
  unfold convert_wrap.
  destruct (wrap_loop wrap_init lines) as [[st os]| |] eqn:E; cbn [bind];
    try discriminate.
  intros H. inversion H. subst out. clear H. revert E.
  generalize wrap_init. revert os st.
  induction lines as [|l lines IH]; intros os st st0; cbn [wrap_loop].
  - intros H. inversion H. reflexivity.
  - destruct (wrap_step st0 l) as [[st1 o]| |]; cbn [bind]; try discriminate.
    destruct (wrap_loop st1 lines) as [[st2 os2]| |] eqn:E; cbn [bind];
      try discriminate.
    intros H. inversion H. subst. cbn [List.length]. f_equal. exact (IH _ _ _ E).
Qed.

(** X6: [convert_wrap] returns as many lines as it was given. *)
Theorem convert_wrap_length (lines out : list string) :
  convert_wrap lines = Ok out -> List.length out = List.length lines.
Proof. exact (convert_wrap_length_aux lines out). Qed.

Lemma convert_wrap_length_witness :
  List.length ["> "; "> Text"; "{.is-info}"]
  = List.length ["<WRAP info>"; "Text"; "</WRAP>"].
Proof.
  refine (convert_wrap_length ["<WRAP info>"; "Text"; "</WRAP>"]
            ["> "; "> Text"; "{.is-info}"] _).
  reflexivity.
Defined.

Lemma wrap_loop_plain (lines : list string) (st : wrap_state) :
  (forall l, In l lines -> plain_line l) ->
  wrap_loop st lines
  = Ok (st, if wrapping st then map (append "> ") lines else lines).
Proof.
  induction lines as [|l lines IH]; intros H; cbn [wrap_loop].
  - now destruct (wrapping st).
  - destruct (H l (or_introl eq_refl)) as [Ho Hc].
    rewrite (wrap_step_plain st _ Ho), Hc. cbn [bind].
    rewrite IH by (intros l' Hl'; apply H; now right). cbn [bind].
    now destruct (wrapping st).
Qed.

(** X7: A document with no opening line and no closing tag is returned as it
    is. *)
Theorem convert_wrap_plain (lines : list string) :
  (forall l, In l lines -> plain_line l) -> convert_wrap lines = Ok lines.
Proof.
  intros H. unfold convert_wrap. now rewrite (wrap_loop_plain lines wrap_init H).
Qed.

Lemma convert_wrap_plain_witness :
  convert_wrap ["# Title"; "Some <b>text</b>."] = Ok ["# Title"; "Some <b>text</b>."].
Proof.
  refine (convert_wrap_plain ["# Title"; "Some <b>text</b>."] _).
  intros l [<-|[<-|[]]]; split; reflexivity.
Defined.

Lemma contains_cut_rest (l tag rest p : string) :
  cut l ">" = Some (tag, rest) -> contains rest p = true -> contains l p = true.
Proof.
  revert tag. induction l as [|c l IH]; intros tag; cbn [cut]; [discriminate|].
  destruct (Ascii.eqb c ">").
  - intros H Hr. inversion H. subst. now apply contains_tail.
  - destruct (cut l ">") as [[a b]|]; [|discriminate].
    intros H Hr. inversion H. subst. apply contains_tail. now apply (IH a).
Qed.

Lemma closes_cut_rest (l tag rest : string) :
  cut l ">" = Some (tag, rest) -> closes l = false -> closes rest = false.
Proof.
  unfold closes. intros Hc H. apply orb_false_iff in H as [H1 H2].
  apply orb_false_iff. split; apply contains_false_true; intros H.
  - apply (contains_cut_rest _ _ _ _ Hc) in H. congruence.
  - apply (contains_cut_rest _ _ _ _ Hc) in H. congruence.
Qed.

(** One step on a line that carries no closing tag, when the state is
    wrapping or the line opens a block. *)
Lemma wrap_step_unclosed (st : wrap_state) (l : string) :
  closes l = false -> ~ open_without_gt l ->
  wrapping st = true \/ is_open_line l = true ->
  exists st', wrap_step st l = Ok (st', quote_line l)
              /\ wrapping st' = true.
Proof.
  intros Hc Hg Hw. unfold quote_line, quoted_text.
  destruct (is_open_line l) eqn:E.
  - destruct (cut l ">") as [[tag rest]|] eqn:Hcut.
    + rewrite (wrap_step_open st _ _ _ E Hcut), (closes_cut_rest _ _ _ Hcut Hc).
      unfold partition_after. rewrite Hcut. eexists. split; reflexivity.
    + elim Hg. now split.
  - destruct Hw as [Hw|Hw]; [|discriminate].
    rewrite (wrap_step_plain st _ E), Hc, Hw. exists st. now split.
Qed.

Lemma wrap_loop_unclosed (lines : list string) :
  (forall l, In l lines -> closes l = false /\ ~ open_without_gt l) ->
  forall st, wrapping st = true ->
    exists st', wrap_loop st lines
                = Ok (st', map quote_line lines).
Proof.
  induction lines as [|l lines IH]; intros H st Hw; cbn [wrap_loop map].
  - now exists st.
  - destruct (H l (or_introl eq_refl)) as [Hc Hg].
    destruct (wrap_step_unclosed st l Hc Hg (or_introl Hw)) as [st1 [Hs Hw1]].
    rewrite Hs. cbn [bind].
    destruct (IH (fun l' Hl' => H l' (or_intror Hl')) st1 Hw1) as [st2 H2].
    rewrite H2. cbn [bind]. now exists st2.
Qed.

(** X8: A block that is never closed, wherever it opens: when no line from an
    opening line to the end of the document carries a closing tag, the lines
    before it are rewritten as they are on their own, and the opening line
    and every line after it come out prefixed with [> ], an opening line
    showing the text after its first [>]. *)
Theorem unclosed_block_quoted (before out_before : list string) (line : string)
    (after : list string) :
  convert_wrap before = Ok out_before ->
  is_open_line line = true ->
  (forall l, In l (line :: after) -> closes l = false /\ ~ open_without_gt l) ->
  convert_wrap (before ++ line :: after)%list
  = Ok (out_before ++ map quote_line (line :: after))%list.
Proof.
  unfold convert_wrap. intros Hb Ho H. rewrite wrap_loop_app.
  destruct (wrap_loop wrap_init before) as [[st outs]| |]; cbn [bind] in Hb |- *;
    try discriminate.
  inversion Hb. subst outs. clear Hb.
  cbn [wrap_loop map].
  destruct (H line (or_introl eq_refl)) as [Hc Hg].
  destruct (wrap_step_unclosed st line Hc Hg (or_intror Ho)) as [st1 [Hs Hw1]].
  rewrite Hs. cbn [bind].
  destruct (wrap_loop_unclosed after (fun l' Hl' => H l' (or_intror Hl')) st1 Hw1)
    as [st2 H2].
  rewrite H2. reflexivity.
Qed.

(** A block opened after a closed one, with a second opening line inside. *)
Lemma unclosed_block_quoted_witness :
  convert_wrap ["# Title"; "<WRAP info>a</WRAP>"; "<WRAP tip>Mind"; "the gap"; "";
                "<WRAP box>again"]
  = Ok ["# Title"; "> a{.is-info}"; "> Mind"; "> the gap"; "> "; "> again"].
Proof.
  refine (unclosed_block_quoted ["# Title"; "<WRAP info>a</WRAP>"]
            ["# Title"; "> a{.is-info}"] "<WRAP tip>Mind"
            ["the gap"; ""; "<WRAP box>again"] _ _ _); try reflexivity.
  intros l [<-|[<-|[<-|[<-|[]]]]]; (split; [reflexivity|]);
    intros [Ho Hn]; cbv in Ho, Hn; first [discriminate Ho | discriminate Hn].
Defined.

(** ** Front matter and the pipeline *)

Lemma insert_entries (md : list (string * string)) :
  forall done lines,
    fold_left (fun acc kv => list_insert 1 (metadata_line kv) acc) md
              ("---" :: done ++ lines)%list
    = ("---" :: rev (map metadata_line md) ++ done ++ lines)%list.
Proof.
  induction md as [|kv md IH]; intros done lines; [reflexivity|].
  cbn [fold_left map rev].
  change (list_insert 1 (metadata_line kv) ("---" :: done ++ lines)%list)
    with ("---" :: (metadata_line kv :: done) ++ lines)%list.
  rewrite IH. now rewrite <- app_assoc.
Qed.

(** X9: [add_metadata] puts before the body a line [---], one line per key,
    and a line [---]; every key is inserted at index 1, so the keys come out
    in the reverse of their order in the dictionary. *)
Theorem add_metadata_shape (lines : list string) (md : list (string * string)) :
  add_metadata lines md
  = ("---" :: rev (map metadata_line md) ++ "---" :: lines)%list.
Proof.
  unfold add_metadata.
  change (list_insert 0 "---" lines) with ("---" :: [] ++ lines)%list.
  change (fun acc kv => list_insert 1 (fst kv ++ ": " ++ snd kv) acc)
    with (fun acc kv => list_insert 1 (metadata_line kv) acc).
  rewrite insert_entries. cbn [app]. unfold list_insert.
  replace (List.length md + 1) with (S (List.length (rev (map metadata_line md))))
    by (rewrite length_rev, length_map; lia).
  cbn [firstn skipn].
  rewrite firstn_app, Nat.sub_diag, firstn_all. cbn [firstn].
  rewrite skipn_app, Nat.sub_diag, skipn_all. cbn [skipn app].
  now rewrite app_nil_r.
Qed.

(** X10: When [convert_file] returns (here from its lines, after the link
    rewriter), its output is the three front-matter
    lines followed by the output of [convert_wrap] on the stripped lines,
    the title being extracted from that output; there are three lines more
    than in the input. *)
Theorem finish_file_shape (lines : list string) (title : string) (out : list string) :
  finish_file lines title = Ok out ->
  exists t body,
    convert_wrap (remove_useless_tags lines) = Ok body
    /\ first_heading_or_filename body title = Ok t
    /\ out = "---" :: ("title: " ++ quoted t) :: "---" :: body
    /\ List.length out = List.length lines + 3.
Proof.
  unfold finish_file.
  destruct (convert_wrap (remove_useless_tags lines)) as [body| |] eqn:Ew;
    cbn [bind]; try discriminate.
  unfold get_metadata.
  destruct (first_heading_or_filename body title) as [t| |] eqn:Et;
    cbn [bind]; try discriminate.
  intros H. inversion H. subst out. clear H.
  exists t, body. split; [reflexivity|]. split; [exact Et|].
  split; [reflexivity|].
  transitivity (List.length ("---" :: ("title: " ++ quoted t) :: "---" :: body));
    [reflexivity|].
  cbn [List.length].
  rewrite (convert_wrap_length_aux _ _ Ew).
  unfold remove_useless_tags. rewrite length_map. lia.
Qed.

(** A markdown document with a heading and one admonition block. *)
Lemma finish_file_shape_witness :
  exists t body,
    convert_wrap (remove_useless_tags ["# Page"; "<WRAP info>Note"; "</WRAP>"]) = Ok body
    /\ first_heading_or_filename body "page" = Ok t
    /\ ["---"; "title: " ++ quoted "Page"; "---"; "# Page"; "> Note"; "{.is-info}"]
       = "---" :: ("title: " ++ quoted t) :: "---" :: body
    /\ List.length ["---"; "title: " ++ quoted "Page"; "---"; "# Page"; "> Note";
                    "{.is-info}"]
       = List.length ["# Page"; "<WRAP info>Note"; "</WRAP>"] + 3.
Proof.
  refine (finish_file_shape ["# Page"; "<WRAP info>Note"; "</WRAP>"] "page"
            ["---"; "title: " ++ quoted "Page"; "---"; "# Page"; "> Note"; "{.is-info}"]
            _).
  reflexivity.
Defined.

(** X11: A heading line with no space gives the empty title, not the fallback
    page name: [partition] finds no separator. *)
Theorem heading_without_space (a : string) (body : list string) (pagename : string) :
  cut (String "#" a) " " = None ->
  first_heading_or_filename (String "#" a :: body) pagename = Ok EmptyString
  /\ get_metadata (String "#" a :: body) pagename
     = Ok [("title", String dquote (String dquote EmptyString))].
Proof.
  intros Hc.
  assert (H : first_heading_or_filename (String "#" a :: body) pagename
              = Ok EmptyString).
  { cbn [first_heading_or_filename]. rewrite Ascii.eqb_refl.
    unfold partition_after. now rewrite Hc. }
  split; [exact H|]. unfold get_metadata. now rewrite H.
Qed.

Lemma heading_without_space_witness :
  first_heading_or_filename ["#Title"; "text"] "page" = Ok EmptyString
  /\ get_metadata ["#Title"; "text"] "page"
     = Ok [("title", String dquote (String dquote EmptyString))].
Proof.
  refine (heading_without_space "Title" ["text"] "page" _). reflexivity.
Defined.

(** ** Replacements that find nothing, and what they leave *)

Lemma replace_absent (old new : string) :
  old <> EmptyString ->
  forall s, contains s old = false -> replace s old new = s.
Proof.
  intros Hne s. unfold replace. destruct old as [|o old']; [congruence|].
  induction s as [|c s IH]; intros H; [reflexivity|].
  rewrite contains_cons in H. apply orb_false_iff in H as [H1 H2].
  cbn [replace_go]. rewrite H1. now rewrite (IH H2).
Qed.

Lemma contains_absent_char (c : ascii) (p : string) :
  forall s, has_char s c = false -> contains s (String c p) = false.
Proof.
  induction s as [|d s IH]; intros H; [reflexivity|].
  cbn [has_char] in H. apply orb_false_iff in H as [H1 H2].
  rewrite contains_cons. cbn [startswith].
  rewrite Ascii.eqb_sym, H1. cbn [andb orb]. now apply IH.
Qed.

Lemma replace_removes (s : string) (o : ascii) (old' : string) (n0 : ascii)
    (new' : string) :
  disjoint (String n0 new') (String o old') = true ->
  contains (replace s (String o old') (String n0 new')) (String o old') = false.
Proof.
  intros Hd. exact (contains_rep_old o old' (String n0 new') n0 new' eq_refl Hd s).
Qed.

Lemma replace_keeps_absent (s : string) (o : ascii) (old' : string) (n0 : ascii)
    (new' : string) (t : ascii) (T' : string) :
  disjoint (String n0 new') (String t T') = true ->
  contains s (String t T') = false ->
  contains (replace s (String o old') (String n0 new')) (String t T') = false.
Proof.
  intros Hd H. apply contains_false_true. intros H'.
  apply (contains_rep o old' (String n0 new') n0 new' eq_refl t T' Hd s) in H'.
  rewrite H in H'. discriminate.
Qed.

(** ** The stale-tag stripper *)

(** X12: Lines that hold neither of the two tags are not changed by
    [remove_useless_tags]. *)
Theorem remove_useless_tags_plain (lines : list string) :
  (forall l, In l lines ->
     contains l "\<sortable\>" = false /\ contains l "\</sortable\>" = false) ->
  remove_useless_tags lines = lines.
Proof.
  unfold remove_useless_tags.
  induction lines as [|l lines IH]; intros H; [reflexivity|].
  cbn [map]. destruct (H l (or_introl eq_refl)) as [H1 H2].
  rewrite (replace_absent "\<sortable\>" EmptyString) by (discriminate || exact H1).
  rewrite (replace_absent "\</sortable\>" EmptyString) by (discriminate || exact H2).
  f_equal. apply IH. intros l' Hl'. apply H. now right.
Qed.

Lemma remove_useless_tags_plain_witness :
  remove_useless_tags ["| a | b |"; "<sortable>"] = ["| a | b |"; "<sortable>"].
Proof.
  refine (remove_useless_tags_plain ["| a | b |"; "<sortable>"] _).
  intros l [<-|[<-|[]]]; split; reflexivity.
Defined.

(** ** File names *)

(** X13: None of the eight percent codes is left in the output of
    [convert_filename_to_unicode]: a replacement leaves no occurrence of its
    code, and the letters put in by the later ones cannot make one. *)
Theorem convert_filename_no_code (line code : string) :
  In code percent_codes ->
  contains (convert_filename_to_unicode line) code = false.
Proof.
  unfold percent_codes, convert_filename_to_unicode, chr. cbv zeta.
  intros H.
  repeat (destruct H as [<-|H]; [
    repeat first [ apply replace_removes; reflexivity
                 | apply replace_keeps_absent; [reflexivity|] ] |]).
  destruct H.
Qed.

Lemma convert_filename_no_code_witness :
  contains (convert_filename_to_unicode "J%C3%%C3%A4A4rvi") "%C3%A4" = false.
Proof.
  refine (convert_filename_no_code "J%C3%%C3%A4A4rvi" "%C3%A4" _).
  right. right. right. right. left. reflexivity.
Defined.

(** X14: A name with no percent sign is not changed. *)
Theorem convert_filename_plain (line : string) :
  has_char line "%" = false -> convert_filename_to_unicode line = line.
Proof.
  intros H. unfold convert_filename_to_unicode. cbv zeta.
  rewrite (replace_absent "%C3%84" (chr 196) ltac:(discriminate) line)
    by now apply contains_absent_char.
  rewrite (replace_absent "%C3%85" (chr 197) ltac:(discriminate) line)
    by now apply contains_absent_char.
  rewrite (replace_absent "%C3%89" (chr 201) ltac:(discriminate) line)
    by now apply contains_absent_char.
  rewrite (replace_absent "%C3%96" (chr 214) ltac:(discriminate) line)
    by now apply contains_absent_char.
  rewrite (replace_absent "%C3%A4" (chr 228) ltac:(discriminate) line)
    by now apply contains_absent_char.
  rewrite (replace_absent "%C3%A5" (chr 229) ltac:(discriminate) line)
    by now apply contains_absent_char.
  rewrite (replace_absent "%C3%A9" (chr 233) ltac:(discriminate) line)
    by now apply contains_absent_char.
  now rewrite (replace_absent "%C3%B6" (chr 246) ltac:(discriminate) line)
    by now apply contains_absent_char.
Qed.

Lemma convert_filename_plain_witness :
  convert_filename_to_unicode "data/pages/wiki/start" = "data/pages/wiki/start".
Proof.
  refine (convert_filename_plain "data/pages/wiki/start" _). reflexivity.
Defined.

(** ** Temporary paths *)

Lemma split_pieces_no_sep (sep : ascii) (s : string) :
  forall w, In w (split s sep) -> has_char w sep = false.
Proof.
  induction s as [|c s IH]; intros w; cbn [split].
  - intros [<-|[]]. reflexivity.
  - destruct (Ascii.eqb c sep) eqn:E.
    + intros [<-|H]; [reflexivity | now apply IH].
    + destruct (split s sep) as [|w0 ws] eqn:Es.
      * intros [<-|[]]. cbn [has_char]. now rewrite E.
      * intros [<-|H].
        -- cbn [has_char]. rewrite E. apply IH. now left.
        -- apply IH. now right.
Qed.

Lemma list_index_none (x : string) (l : list string) :
  list_index x l = None <-> ~ In x l.
Proof.
  induction l as [|y l IH]; cbn [list_index In]; [tauto|].
  destruct (String.eqb_spec y x) as [->|Hne].
  - split; [discriminate | intros H; elim H; now left].
  - destruct (list_index x l); cbn [option_map].
    + split; [discriminate|]. intros H.
      assert (Hn : ~ In x l) by (intros Hi; apply H; now right).
      apply IH in Hn. discriminate.
    + split; [|reflexivity]. intros _ [H|H]; [congruence | now apply (proj1 IH)].
Qed.

Lemma list_index_some (x : string) (l : list string) :
  forall i, list_index x l = Some i ->
    exists rest, skipn i l = x :: rest /\ forall w, In w rest -> In w l.
Proof.
  induction l as [|y l IH]; intros i; cbn [list_index]; [discriminate|].
  destruct (String.eqb_spec y x) as [->|Hne].
  - intros H. inversion H. exists l. split; [reflexivity | intros w Hw; now right].
  - destruct (list_index x l) as [n|]; cbn [option_map]; [|discriminate].
    intros H. inversion H. destruct (IH n eq_refl) as [rest [Hs Hr]].
    exists rest. split; [exact Hs | intros w Hw; right; now apply Hr].
Qed.

Lemma startswith_app (p : string) :
  forall a b, startswith a p = true -> startswith (a ++ b) p = true.
Proof.
  induction p as [|c p IH]; intros a b H; [reflexivity|].
  destruct a as [|d a]; [discriminate|].
  cbn [startswith append] in H |- *. apply andb_prop in H as [H1 H2].
  rewrite H1. cbn [andb]. now apply IH.
Qed.

Lemma path_join2_extends (p path b : string) :
  has_char b "/" = false -> startswith path p = true ->
  startswith (path_join2 path b) p = true.
Proof.
  intros Hb Hp. unfold path_join2.
  assert (E : startswith b "/" = false).
  { destruct b as [|c b]; [reflexivity|].
    cbn [has_char] in Hb. apply orb_false_iff in Hb as [Hb _].
    cbn [startswith]. now rewrite Ascii.eqb_sym, Hb. }
  rewrite E.
  destruct ((String.length path =? 0)%nat || ends_with_slash path);
    now apply startswith_app.
Qed.

Lemma path_join_extends (p : string) (ps : list string) :
  forall a, (forall w, In w ps -> has_char w "/" = false) ->
            startswith a p = true -> startswith (path_join a ps) p = true.
Proof.
  unfold path_join. induction ps as [|b ps IH]; intros a H Ha; [exact Ha|].
  cbn [fold_left]. apply IH.
  - intros w Hw. apply H. now right.
  - apply path_join2_extends; [apply H; now left | exact Ha].
Qed.

(** X15: [temporary_file_for] raises [ValueError] exactly when no component of
    the path is [data]; otherwise the path it returns lies under
    [/tmp/dokuwiki2wikijs/data]. *)
Theorem temporary_file_for_under_tmp (pathname : string) :
  (temporary_file_for pathname = Raise ValueError
   <-> ~ In "data" (split pathname "/"))
  /\ (forall out, temporary_file_for pathname = Ok out ->
                  startswith out "/tmp/dokuwiki2wikijs/data" = true).
Proof.
  unfold temporary_file_for.
  destruct (list_index "data" (split pathname "/")) as [i|] eqn:E.
  - split.
    + split; [discriminate|]. intros H. apply list_index_none in H. congruence.
    + intros out H. inversion H. subst out.
      destruct (list_index_some _ _ _ E) as [rest [Hs Hr]]. rewrite Hs.
      change (path_join tmp_prefix ("data" :: rest))
        with (path_join "/tmp/dokuwiki2wikijs/data" rest).
      apply path_join_extends; [|reflexivity].
      intros w Hw. apply (split_pieces_no_sep "/" pathname). now apply Hr.
  - split.
    + split; [intros _; now apply list_index_none | reflexivity].
    + discriminate.
Qed.

(** ** The user registry *)

Lemma read_users_line_none (users : list (string * user)) (line : string) :
  read_users_line users line = None
  <-> (considered line = true /\ List.length (split line ":") <> 5).
Proof.
  unfold read_users_line, considered.
  destruct (negb (startswith line "#") && (1 <? String.length line)%nat).
  - destruct (split line ":") as [|p0 [|p1 [|p2 [|p3 [|p4 [|p5 l]]]]]];
      cbn [List.length]; split; try discriminate; try reflexivity;
      try (intros [_ H]; lia); try (intros _; split; [reflexivity | lia]).
  - split; [discriminate | intros [H _]; discriminate].
Qed.

(** X16: [read_users] fails, on its assertion, exactly when some line that is
    neither a comment nor shorter than two characters has not five fields
    between colons. *)
Theorem read_users_fails_iff (lines : list string) :
  forall users,
    read_users users lines = None
    <-> exists l, In l lines /\ considered l = true
                  /\ List.length (split l ":") <> 5.
Proof.
  induction lines as [|l lines IH]; intros users; cbn [read_users].
  - split; [discriminate | intros [l [[] _]]].
  - destruct (read_users_line users l) as [users'|] eqn:E.
    + rewrite IH. split.
      * intros [l' [Hin H]]. exists l'. split; [now right | exact H].
      * intros [l' [[<-|Hin] H]].
        -- apply (read_users_line_none users) in H. congruence.
        -- exists l'. now split.
    + split; [|reflexivity]. intros _. exists l. split; [now left|].
      now apply (read_users_line_none users).
Qed.

Lemma dict_get_set_same (k : string) (v : user) (d : list (string * user)) :
  dict_get k (dict_set k v d) = Some v.
Proof.
  induction d as [|[k' v'] d IH]; cbn [dict_set dict_get].
  - now rewrite String.eqb_refl.
  - destruct (String.eqb k' k) eqn:E; cbn [dict_get].
    + now rewrite String.eqb_refl.
    + now rewrite E.
Qed.

Lemma dict_get_set_other (k k0 : string) (v : user) (d : list (string * user)) :
  k0 <> k -> dict_get k0 (dict_set k v d) = dict_get k0 d.
Proof.
  intros Hne. induction d as [|[k' v'] d IH]; cbn [dict_set dict_get].
  - destruct (String.eqb_spec k k0); [congruence | reflexivity].
  - destruct (String.eqb_spec k' k) as [->|Hk]; cbn [dict_get].
    + destruct (String.eqb_spec k k0); [congruence | reflexivity].
    + destruct (String.eqb k' k0); [reflexivity | exact IH].
Qed.

Lemma read_users_app (a b : list string) :
  forall users,
    read_users users (a ++ b)%list
    = match read_users users a with
      | Some users' => read_users users' b
      | None => None
      end.
Proof.
  induction a as [|l a IH]; intros users; cbn [read_users app]; [reflexivity|].
  destruct (read_users_line users l); [apply IH | reflexivity].
Qed.

(** X17: After a line with five fields is read, the registry gives for its first
    field the name and the mail address of that line, whatever an earlier
    line said for the same user, and what it gave before for every other
    user. *)
Theorem read_users_last_wins (users d : list (string * user)) (pre : list string)
    (line p0 p1 p2 p3 p4 : string) :
  read_users users pre = Some d ->
  considered line = true ->
  split line ":" = [p0; p1; p2; p3; p4] ->
  exists d',
    read_users users (pre ++ [line])%list = Some d'
    /\ dict_get p0 d' = Some (User p2 p3)
    /\ forall k, k <> p0 -> dict_get k d' = dict_get k d.
Proof.
  intros Hpre Hc Hs. exists (dict_set p0 (User p2 p3) d).
  split; [|split].
  - rewrite read_users_app, Hpre. cbn [read_users].
    unfold read_users_line. unfold considered in Hc. now rewrite Hc, Hs.
  - apply dict_get_set_same.
  - intros k Hk. now apply dict_get_set_other.
Qed.

Lemma read_users_last_wins_witness :
  exists d',
    read_users [] (["# users"; "bob:h:Bob:bob@x.org:user"]
                   ++ ["bob:h2:Robert:r@x.org:admin"])%list = Some d'
    /\ dict_get "bob" d' = Some (User "Robert" "r@x.org")
    /\ forall k, k <> "bob" -> dict_get k d' = dict_get k [("bob", User "Bob" "bob@x.org")].
Proof.
  refine (read_users_last_wins [] [("bob", User "Bob" "bob@x.org")]
            ["# users"; "bob:h:Bob:bob@x.org:user"]
            "bob:h2:Robert:r@x.org:admin" "bob" "h2" "Robert" "r@x.org" "admin"
            _ _ _); reflexivity.
Defined.

(** ** The sentence unwrapper *)

Lemma isalpha_not_space (c : ascii) : isalpha c = true -> isspace c = false.
Proof.
  destruct c as [[] [] [] [] [] [] [] []]; vm_compute; congruence.
Qed.

Lemma strip_nonempty (c : ascii) (r : string) :
  isspace c = false -> (String.length (strip (String c r)) =? 0)%nat = false.
Proof.
  intros H. unfold strip. cbn [lstrip]. rewrite H. cbn [rstrip].
  destruct (rstrip r); [now rewrite H | reflexivity].
Qed.

(** X18: [starts_with_text] answers by the first character alone: a letter or a
    double quote.  The test on the stripped line and the test for a numeric
    list marker change nothing. *)
Theorem starts_with_text_iff (line : string) :
  starts_with_text line = true
  <-> exists c r, line = String c r /\ (isalpha c = true \/ c = dquote).
Proof.
  unfold starts_with_text. split.
  - destruct (String.length (strip line) =? 0)%nat; [discriminate|].
    destruct line as [|c r]; [discriminate|].
    destruct (isalpha c || Ascii.eqb c dquote) eqn:E.
    + intros _. exists c, r. split; [reflexivity|].
      apply orb_prop in E as [E|E]; [now left | right; now apply Ascii.eqb_eq].
    + now destruct (numeric_marker (String c r)).
  - intros [c [r [-> H]]].
    assert (Hs : isspace c = false).
    { destruct H as [H| ->]; [now apply isalpha_not_space | reflexivity]. }
    rewrite (strip_nonempty c r Hs).
    destruct H as [H| ->]; [now rewrite H | now rewrite Ascii.eqb_refl, orb_true_r].
Qed.

Lemma cut_str_found (x : ascii) (sep' : string) (s : string) :
  contains s (String x sep') = true ->
  exists a b,
    cut_str s (String x sep') = Some (a, b)
    /\ s = a ++ String x sep' ++ b
    /\ contains a (String x sep') = false
    /\ String.length b < String.length s.
Proof.
  induction s as [|c r IH]; intros H; [discriminate|].
  cbn [cut_str].
  destruct (startswith (String c r) (String x sep')) eqn:E.
  - exists EmptyString, (skip (String.length (String x sep')) (String c r)).
    split; [reflexivity|]. split; [exact (startswith_split _ _ E)|].
    split; [reflexivity|].
    cbn [String.length skip]. pose proof (skip_length (String.length sep') r). lia.
  - rewrite contains_cons, E in H. cbn [orb] in H.
    destruct (IH H) as [a [b [Hc [Hs [Ha Hl]]]]].
    exists (String c a), b. rewrite Hc.
    split; [reflexivity|]. split; [rewrite Hs at 1; reflexivity|].
    split; [|cbn [String.length]; lia].
    rewrite contains_cons, Ha, orb_false_r.
    destruct (startswith (String c a) (String x sep')) eqn:E'; [|reflexivity].
    rewrite Hs in E.
    change (String c (a ++ String x sep' ++ b))
      with (String c a ++ String x sep' ++ b) in E.
    now rewrite (startswith_app _ _ _ E') in E.
Qed.

Lemma sentence_piece (a : string) :
  contains a ". " = false -> contains (a ++ ".") ". " = false.
Proof.
  induction a as [|c a IH]; intros H; [reflexivity|].
  rewrite contains_cons in H. apply orb_false_iff in H as [H1 H2].
  cbn [append]. rewrite contains_cons, (IH H2), orb_false_r.
  destruct a as [|d a]; cbn [append startswith] in H1 |- *.
  - now rewrite andb_false_r.
  - exact H1.
Qed.

Lemma split_sentences_unfold (fuel : nat) (line : string) :
  split_sentences fuel line
  = if contains line ". " then
      match fuel with
      | O => OutOfFuel
      | S fuel' =>
          match cut_str line ". " with
          | Some (line1, rest) =>
              rs <- split_sentences fuel' rest ;; Ok ((line1 ++ ".") :: rs)
          | None => Raise ValueError
          end
      end
    else Ok [line].
Proof. destruct fuel; reflexivity. Qed.

Lemma split_sentences_total (n : nat) :
  forall line, String.length line <= n ->
    exists rs, (forall fuel, n <= fuel -> split_sentences fuel line = Ok rs)
               /\ forall o, In o rs -> one_sentence o.
Proof.
  induction n as [|n IH]; intros line Hle.
  - destruct line as [|c r]; [|cbn in Hle; lia].
    exists [EmptyString]. split.
    + intros fuel _. now rewrite split_sentences_unfold.
    + intros o [<-|[]]. reflexivity.
  - destruct (contains line ". ") eqn:E.
    + destruct (cut_str_found "." " " line E) as [a [b [Hc [_ [Ha Hl]]]]].
      destruct (IH b ltac:(lia)) as [rs [Hrs Hone]].
      exists ((a ++ ".") :: rs). split.
      * intros fuel Hf. destruct fuel as [|f]; [lia|].
        rewrite split_sentences_unfold, E, Hc, (Hrs f) by lia. reflexivity.
      * intros o [<-|Ho]; [now apply sentence_piece | now apply Hone].
    + exists [line]. split.
      * intros fuel _. now rewrite split_sentences_unfold, E.
      * intros o [<-|[]]. exact E.
Qed.

Lemma split_all_total (lines : list string) :
  exists n out, (forall fuel, n <= fuel -> split_all fuel lines = Ok out)
                /\ forall o, In o out -> one_sentence o.
Proof.
  induction lines as [|l lines [n [out [Hout Hone]]]].
  - exists 0, []. split; [reflexivity | intros o []].
  - destruct (split_sentences_total (String.length l) l (Nat.le_refl _))
      as [rs [Hrs Hrs1]].
    exists (String.length l + n), (rs ++ out)%list. split.
    + intros fuel Hf. cbn [split_all].
      rewrite (Hrs fuel) by lia. cbn [bind]. rewrite (Hout fuel) by lia.
      reflexivity.
    + intros o Ho. apply in_app_or in Ho as [Ho|Ho]; [now apply Hrs1 | now apply Hone].
Qed.

(** X19: [unwrap_sentences] always returns: its inner loop ends on every line,
    and no line of its output holds a full stop followed by a space. *)
Theorem unwrap_sentences_one_per_line (lines : list string) :
  exists n out,
    (forall fuel, n <= fuel -> unwrap_sentences fuel lines = Ok out)
    /\ forall o, In o out -> contains o ". " = false.
Proof.
  unfold unwrap_sentences. exact (split_all_total (compact lines)).
Qed.

Lemma compact_settled (lines : list string) :
  (forall l, In l lines -> settled l) ->
  forall acc,
    fold_left unwrap_step lines (UnwrapState acc false EmptyString)
    = UnwrapState (acc ++ lines)%list false EmptyString.
Proof.
  induction lines as [|l lines IH]; intros H acc; cbn [fold_left].
  - now rewrite app_nil_r.
  - assert (E : unwrap_step (UnwrapState acc false EmptyString) l
                = UnwrapState (acc ++ [l])%list false EmptyString).
    { unfold unwrap_step. cbn [doing_compacting negb compacted_lines compacted_line].
      destruct (H l (or_introl eq_refl)) as [[-> | He] _]; [reflexivity|].
      now rewrite He, andb_false_r. }
    rewrite E, IH by (intros l' Hl'; apply H; now right).
    now rewrite <- app_assoc.
Qed.

(** X20: Lines that are empty or end with a full stop, and hold no full stop
    followed by a space, are returned as they are, with any fuel. *)
Theorem unwrap_sentences_settled (fuel : nat) (lines : list string) :
  (forall l, In l lines -> settled l) ->
  unwrap_sentences fuel lines = Ok lines.
Proof.
  intros H. unfold unwrap_sentences, compact, unwrap_init.
  rewrite (compact_settled lines H []). cbn [compacted_line compacted_lines app].
  cbn [String.eqb negb].
  clear - H. induction lines as [|l lines IH]; [reflexivity|].
  cbn [split_all]. destruct (H l (or_introl eq_refl)) as [_ Hl].
  rewrite split_sentences_unfold, Hl. cbn [bind].
  rewrite IH by (intros l' Hl'; apply H; now right). reflexivity.
Qed.

Lemma unwrap_sentences_settled_witness :
  unwrap_sentences 0 ["One sentence."; ""; "Another one."]
  = Ok ["One sentence."; ""; "Another one."].
Proof.
  refine (unwrap_sentences_settled 0 ["One sentence."; ""; "Another one."] _).
  intros l [<-|[<-|[<-|[]]]]; (split; [|reflexivity]);
    first [left; reflexivity | right; reflexivity].
Defined.

(** * The passes on whole documents *)

(** ** A labeled marker anywhere in a document *)



(** *** The scan *)









(** *** The match *)






Lemma match_at_not_open (c : ascii) (s : string) :
  Ascii.eqb c "[" = false -> Ascii.eqb c "{" = false ->
  Re.match_at (String c s) = None.
Proof.
  intros H1 H2. unfold Re.match_at, Re.open_at.
  destruct s as [|b r]; [reflexivity|]. now rewrite H1, H2.
Qed.



(** *** The link *)



(** *** One line *)




(** ** The title and the pipeline *)

(** The first line of the output of [convert_wrap] is empty exactly when
    the first line of its input is: a replaced closing tag gives the initial
    kind, an opening line gives at least [> ]. *)
Lemma replace_go_nonempty (old new : string) (n0 : ascii) (new' : string)
    (c : ascii) (s : string) :
  new = String n0 new' ->
  exists d r, replace_go old new 0 (String c s) = String d r.
Proof.
  intros ->. cbn [replace_go].
  destruct (startswith (String c s) old); cbn [append]; eauto.
Qed.

Lemma close_tags_nonempty (k : string) (n0 : ascii) (k' : string) (line : string)
    (c : ascii) (s : string) :
  k = String n0 k' ->
  exists d r, close_tags k line (String c s) = String d r.
Proof.
  intros Hk. unfold close_tags, raw_close, esc_close, replace.
  destruct (contains line "</WRAP>").
  - destruct (replace_go_nonempty "</WRAP>" k n0 k' c s Hk) as [d [r ->]].
    destruct (contains line "\</WRAP\>"); [|eauto].
    exact (replace_go_nonempty "\</WRAP\>" k n0 k' d r Hk).
  - destruct (contains line "\</WRAP\>"); [|eauto].
    exact (replace_go_nonempty "\</WRAP\>" k n0 k' c s Hk).
Qed.

Lemma wrap_step_init_empty (line : string) (st : wrap_state) (o : string) :
  wrap_step wrap_init line = Ok (st, o) ->
  (o = EmptyString <-> line = EmptyString).
Proof.
  intros H. destruct (is_open_line line) eqn:E.
  - destruct (wrap_step_open_cut _ _ _ E H) as [tag [rest Hc]].
    rewrite (wrap_step_open wrap_init _ _ _ E Hc) in H.
    assert (Ho : exists r, o = String ">" r).
    { destruct (closes rest); inversion H; subst.
      - rewrite close_tags_quote. now eexists.
      - now eexists. }
    destruct Ho as [r ->]. split; [discriminate|].
    intros ->. discriminate.
  - rewrite (wrap_step_plain wrap_init _ E) in H.
    destruct line as [|c s].
    + inversion H. now split.
    + split; [|discriminate]. intros ->.
      destruct (closes (String c s)); inversion H as [[Hs Ho]].
      destruct (close_tags_nonempty "{.is-info}" "{" ".is-info}" (String c s) c s eq_refl)
        as [d [r Hd]].
      cbn [kind wrap_init] in Ho. congruence.
Qed.

Lemma convert_wrap_head (lines out : list string) :
  convert_wrap lines = Ok out -> (no_first_char out <-> no_first_char lines).
Proof.
  unfold convert_wrap. destruct lines as [|l rest]; cbn [wrap_loop bind].
  - intros H. inversion H. now split.
  - destruct (wrap_step wrap_init l) as [[st o]| |] eqn:Es; cbn [bind];
      try discriminate.
    destruct (wrap_loop st rest) as [[st2 os]| |]; cbn [bind]; try discriminate.
    intros H. inversion H. subst out.
    pose proof (wrap_step_init_empty _ _ _ Es) as Hi. unfold no_first_char.
    split; intros [Hn|[r Hr]]; try discriminate; right; inversion Hr; subst.
    + exists rest. f_equal. now apply Hi.
    + exists os. f_equal. now apply Hi.
Qed.

Lemma first_heading_index_error (lines : list string) (pagename : string) :
  first_heading_or_filename lines pagename = Raise IndexError
  <-> no_first_char lines.
Proof.
  unfold no_first_char. split.
  - destruct lines as [|[|c s] rest]; simpl; intros H.
    + now left.
    + right. now eexists.
    + destruct (Ascii.eqb c "#"); discriminate.
  - intros [->|[rest ->]]; reflexivity.
Qed.

Lemma first_heading_returns (lines : list string) (pagename : string) :
  (exists title, first_heading_or_filename lines pagename = Ok title)
  <-> ~ no_first_char lines.
Proof.
  split.
  - intros [title H] Hn. apply (first_heading_index_error lines pagename) in Hn.
    congruence.
  - intros Hn. destruct lines as [|[|c s] rest].
    + exfalso. apply Hn. now left.
    + exfalso. apply Hn. right. now eexists.
    + simpl. destruct (Ascii.eqb c "#"); now eexists.
Qed.

(** The passes after the reading of the lines fail with the index error
    exactly when the stripped lines have no first character and
    [convert_wrap] completes on them. *)
Lemma finish_file_index_error (lines : list string) (title : string) :
  finish_file lines title = Raise IndexError
  <-> no_first_char (remove_useless_tags lines)
      /\ exists out, convert_wrap (remove_useless_tags lines) = Ok out.
Proof.
  unfold finish_file. cbv zeta.
  destruct (convert_wrap_result (remove_useless_tags lines)) as [[out Hw]|Hw];
    rewrite Hw; cbn [bind].
  - pose proof (convert_wrap_head _ _ Hw) as Hh. unfold get_metadata.
    destruct (first_heading_or_filename out title) as [t|e|] eqn:Ef; cbn [bind].
    + split; [discriminate|]. intros [Hn _]. apply Hh in Hn.
      apply (first_heading_index_error out title) in Hn. congruence.
    + assert (He : e = IndexError /\ no_first_char out).
      { destruct out as [|[|c s] rest]; simpl in Ef.
        - inversion Ef. split; [reflexivity | now left].
        - inversion Ef. split; [reflexivity | right; now eexists].
        - destruct (Ascii.eqb c "#"); discriminate. }
      destruct He as [-> Hn]. split; [|reflexivity].
      intros _. split; [now apply Hh | now eexists].
    + split; [discriminate|]. intros [Hn _]. apply Hh in Hn.
      apply (first_heading_index_error out title) in Hn. congruence.
  - split; [discriminate|]. intros [_ [out H]]. discriminate.
Qed.

(** *** A markdown source keeps its heading sign

    The first line of a markdown source starts with [#]; no pass removes
    that character, so the title is always found. *)

Lemma splitlines_hash (s : string) :
  exists w ws, splitlines (String "#" s) = String "#" w :: ws.
Proof.
  cbn [splitlines]. change (is_linebreak "#") with false. cbv iota.
  destruct (splitlines s); eauto.
Qed.

Lemma sub_first_hash (link s l1 : string) :
  sub_first link (String "#" s) = Ok l1 -> exists s1, l1 = String "#" s1.
Proof.
  unfold sub_first.
  destruct (Template.parse None link) as [ps| |]; cbn [bind]; try discriminate.
  destruct (Re.search (String "#" s)) as [[i m]|] eqn:E.
  - unfold Re.search in E. cbn [Re.search_go] in E.
    rewrite (match_at_not_open "#" s eq_refl eq_refl) in E.
    destruct (search_go_split _ _ _ _ E) as [k [-> _]].
    intros H. inversion H. cbn [Nat.add take append]. now eexists.
  - intros H. inversion H. now eexists.
Qed.

Lemma link_loop_hash (fuel : nat) :
  forall i orig s pos c l1 p,
    link_loop fuel i orig (String "#" s) pos c = Ok (l1, p) ->
    exists s1, l1 = String "#" s1.
Proof.
  induction fuel as [|f IH]; intros i orig s pos c l1 p;
    rewrite link_loop_unfold; destruct (pos =? -1)%Z;
    try (intros H; inversion H; now eexists); try discriminate.
  destruct (match Re.search (slice_from (String "#" s) pos) with
            | Some (_, m) => sub_first (link_of_match m) (String "#" s)
            | None => Ok (String "#" s)
            end) as [line1| |] eqn:E; cbn [bind]; try discriminate.
  assert (H1 : exists s1, line1 = String "#" s1).
  { destruct (Re.search (slice_from (String "#" s) pos)) as [[j m]|].
    - exact (sub_first_hash _ _ _ E).
    - inversion E. now eexists. }
  destruct H1 as [s1 ->]. cbv zeta.
  destruct (2 <? _)%nat.
  - intros H. inversion H. now eexists.
  - apply IH.
Qed.

Lemma convert_links_hash (fuel : nat) (w : string) (ws ls printed : list string) :
  convert_links fuel (String "#" w :: ws) = Ok (ls, printed) ->
  exists w1 ls1, ls = String "#" w1 :: ls1.
Proof.
  unfold convert_links. cbn [convert_links_from]. unfold convert_line.
  destruct (link_loop fuel 0 _ _ _ 0) as [[l1 p1]| |] eqn:E; cbn [bind];
    try discriminate.
  destruct (link_loop_hash _ _ _ _ _ _ _ _ E) as [s1 ->].
  destruct (convert_links_from fuel 1 ws) as [[r p2]| |]; cbn [bind];
    try discriminate.
  intros H. inversion H. now eexists; eexists.
Qed.

Lemma close_tags_hash (k line s : string) :
  exists r, close_tags k line (String "#" s) = String "#" r.
Proof.
  unfold close_tags, raw_close, esc_close.
  destruct (contains line "</WRAP>"), (contains line "\</WRAP\>");
    eexists; reflexivity.
Qed.

Lemma convert_wrap_hash (w : string) (ws out : list string) :
  convert_wrap (String "#" w :: ws) = Ok out ->
  exists w1 out1, out = String "#" w1 :: out1.
Proof.
  unfold convert_wrap. cbn [wrap_loop].
  rewrite (wrap_step_plain wrap_init (String "#" w) eq_refl).
  destruct (close_tags_hash (kind wrap_init) (String "#" w) w) as [r Hr].
  rewrite Hr.
  destruct (closes (String "#" w)); cbn [bind wrapping wrap_init];
    match goal with
    | |- context [wrap_loop ?st ws] =>
        destruct (wrap_loop st ws) as [[st2 os]| |]; cbn [bind]; try discriminate
    end;
    intros H; inversion H; now eexists; eexists.
Qed.

Lemma remove_useless_tags_hash (w : string) (ws : list string) :
  exists w1 ws1, remove_useless_tags (String "#" w :: ws) = String "#" w1 :: ws1.
Proof. unfold remove_useless_tags. cbn [map]. eexists. eexists. reflexivity. Qed.

Lemma finish_file_hash (w : string) (ws : list string) (title : string) :
  (exists out, finish_file (String "#" w :: ws) title = Ok out)
  \/ finish_file (String "#" w :: ws) title = Raise ValueError.
Proof.
  unfold finish_file. cbv zeta.
  destruct (remove_useless_tags_hash w ws) as [w1 [ws1 ->]].
  destruct (convert_wrap_result (String "#" w1 :: ws1)) as [[out Hw]|Hw];
    rewrite Hw; cbn [bind]; [|now right].
  destruct (convert_wrap_hash _ _ _ Hw) as [w2 [out2 ->]].
  left. unfold get_metadata. cbn [first_heading_or_filename].
  change (Ascii.eqb "#" "#") with true. cbv iota. cbn [bind]. now eexists.
Qed.

(** C9, as amended: [first_heading_or_filename] raises the index error
    exactly on the line sequences that are empty or start with an empty
    line, and returns a title on every other one; [get_metadata] fails the
    same way.  In the pipeline the title is read from the lines left by the
    stale-tag stripper and by [convert_wrap]: the passes that follow the
    reading fail with the index error exactly when the stripped lines have
    no first character and [convert_wrap] completes, and with the
    [ValueError] of [convert_wrap] otherwise when they have none.  So for a
    source that is not markdown and a converter output that is not empty,
    [convert_file] runs those passes on the lines of the output and raises
    the index error exactly under that condition on them; on an empty converter output it raises the
    [ValueError] of [pandoc], and on an empty file the index error of
    [is_markdown].  For a markdown source on which [convert_links] returns,
    the title is always found: [convert_file] returns, or raises the
    [ValueError] of [convert_wrap]. *)
Theorem title_extraction_partial :
  (forall lines pagename,
     first_heading_or_filename lines pagename = Raise IndexError
     <-> no_first_char lines) /\
  (forall lines pagename,
     (exists title, first_heading_or_filename lines pagename = Ok title)
     <-> ~ no_first_char lines) /\
  (forall lines pagename,
     no_first_char lines -> get_metadata lines pagename = Raise IndexError) /\
  (forall lines title,
     finish_file lines title = Raise IndexError
     <-> no_first_char (remove_useless_tags lines)
         /\ exists out, convert_wrap (remove_useless_tags lines) = Ok out) /\
  (forall lines title,
     no_first_char (remove_useless_tags lines) ->
     finish_file lines title = Raise IndexError
     \/ finish_file lines title = Raise ValueError) /\
  (forall lines, no_first_char lines -> no_first_char (remove_useless_tags lines)) /\
  (forall fuel text stdout title,
     is_markdown text = Ok false -> stdout <> EmptyString ->
     convert_file fuel text stdout title = finish_file (split stdout newline) title
     /\ (convert_file fuel text stdout title = Raise IndexError
         <-> no_first_char (remove_useless_tags (split stdout newline))
             /\ exists out,
                  convert_wrap (remove_useless_tags (split stdout newline)) = Ok out)) /\
  (forall fuel text title,
     is_markdown text = Ok false ->
     convert_file fuel text EmptyString title = Raise ValueError) /\
  (forall fuel stdout title,
     convert_file fuel EmptyString stdout title = Raise IndexError) /\
  (forall fuel text stdout title ls printed,
     is_markdown text = Ok true ->
     convert_links fuel (splitlines text) = Ok (ls, printed) ->
     convert_file fuel text stdout title = finish_file ls title
     /\ ((exists out, convert_file fuel text stdout title = Ok out)
         \/ convert_file fuel text stdout title = Raise ValueError)).
Proof.
  split; [exact first_heading_index_error|].
  split; [exact first_heading_returns|].
  split.
  { intros lines pagename Hn. unfold get_metadata.
    apply (first_heading_index_error lines pagename) in Hn. now rewrite Hn. }
  split; [exact finish_file_index_error|].
  split.
  { intros lines title Hn.
    destruct (convert_wrap_result (remove_useless_tags lines)) as [[out H]|H].
    - left. apply finish_file_index_error. split; [exact Hn | now exists out].
    - right. unfold finish_file. cbv zeta. now rewrite H. }
  split.
  { intros lines [->|[rest ->]]; [now left | right; now eexists]. }
  split.
  { intros fuel text stdout title Hm Hs. unfold convert_file. rewrite Hm.
    cbn [bind]. destruct stdout as [|c s]; [congruence|]. cbn [pandoc bind].
    split; [reflexivity | apply finish_file_index_error]. }
  split.
  { intros fuel text title Hm. unfold convert_file. now rewrite Hm. }
  split; [reflexivity|].
  intros fuel text stdout title ls printed Hm Hl. unfold convert_file.
  rewrite Hm. cbn [bind]. rewrite Hl. cbn [bind].
  split; [reflexivity|].
  destruct text as [|c s]; [discriminate|]. cbn [is_markdown] in Hm.
  inversion Hm as [Hc]. apply Ascii.eqb_eq in Hc. subst c.
  destruct (splitlines_hash s) as [w [ws Hsp]]. rewrite Hsp in Hl.
  destruct (convert_links_hash _ _ _ _ _ Hl) as [w1 [ls1 ->]].
  apply finish_file_hash.
Qed.

(** C9 on a converter output whose first line is a stale tag alone: the
    stripper empties it and the title cannot be read. *)
Lemma title_extraction_partial_witness :
  convert_file 0 "====== Page ======" ("\<sortable\>" ++ String newline "body") "page"
  = Raise IndexError.
Proof.
  refine (proj2 (proj2 (proj1 (proj2 (proj2 (proj2 (proj2 (proj2 (proj2
            title_extraction_partial))))))
            0 "====== Page ======" ("\<sortable\>" ++ String newline "body") "page"
            _ _)) _).
  - reflexivity.
  - discriminate.
  - split; [right; now exists ["body"] | now exists [EmptyString; "body"]].
Defined.

(** C9 as stated fails on a converter output that starts with an empty line
    and has an opening tag with no [>]: the pipeline raises [ValueError] in
    [convert_wrap], before the title is looked at.  The line sequence made
    of one empty line is that of an empty converter output, which raises the
    [ValueError] of [pandoc]. *)
Lemma pipeline_value_error_before_title :
  no_first_char (split (String newline "<WRAP") newline)
  /\ convert_file 0 "====== Page ======" (String newline "<WRAP") "mypage"
     = Raise ValueError
  /\ split EmptyString newline = [EmptyString]
  /\ convert_file 0 "====== Page ======" EmptyString "mypage" = Raise ValueError.
Proof.
  split; [right; now eexists | repeat split; reflexivity].
Qed.
